(** * rhythmify auth-service: token lifecycle, authentication gate, account service

    A shallow embedding of
      - shared/jwt (JWTManager: GenerateTokenPair, generateToken,
        ValidateToken, RefreshAccessToken),
      - services/auth-service/internal/middleware (JWTMiddleware,
        OptionalJWTMiddleware),
      - services/auth-service/internal/service (AuthService),
      - services/auth-service/internal/repository (postgresUserRepository),
    together with a model of the parts of github.com/golang-jwt/jwt/v5,
    crypto/hmac, crypto/sha256, crypto/sha512 and encoding/base64 that this
    code runs through.

    Go strings are byte sequences and are modelled by [string]; int64 and
    time values by [Z]. *)

From stdpp Require Import gmap strings list.
From Stdlib Require Import ZArith Lia Ascii String List Bool.
From Stdlib Require Import DecimalString DecimalZ DecimalPos.
Import ListNotations.
Local Open Scope string_scope.
Local Open Scope list_scope.
Local Open Scope Z_scope.

(** ** Bytes *)

Definition byte_of_Z (z : Z) : ascii := ascii_of_N (Z.to_N (z mod 256)).
Definition Z_of_byte (a : ascii) : Z := Z.of_N (N_of_ascii a).

Definition bytes_of_string (s : string) : list Z := map Z_of_byte (list_ascii_of_string s).
Definition string_of_bytes (l : list Z) : string := string_of_list_ascii (map byte_of_Z l).

(** ** crypto/sha256, crypto/sha512: the SHA-2 family (FIPS 180-4) *)

Module SHA2.

(** The round constants and initial hash values are the leading fractional
    bits of the cube roots and square roots of the first primes. *)

Definition is_prime (n : Z) : bool :=
  (1 <? n) && forallb (fun d => negb (n mod d =? 0)) (map Z.of_nat (seq 2 (Z.to_nat n - 2))).

Definition primes_below (n : nat) : list Z := filter is_prime (map Z.of_nat (seq 0 n)).

Fixpoint icbrt_from (bit : nat) (n r : Z) : Z :=
  match bit with
  | O => r
  | S b =>
      let r' := r + 2 ^ Z.of_nat b in
      icbrt_from b n (if r' * r' * r' <=? n then r' else r)
  end.

(** Largest r with r^3 <= n, for n below 2^(3*96). *)
Definition icbrt (n : Z) : Z := icbrt_from 96 n 0.

Definition frac_cbrt (w p : Z) : Z := icbrt (p * 2 ^ (3 * w)) mod 2 ^ w.
Definition frac_sqrt (w p : Z) : Z := Z.sqrt (p * 2 ^ (2 * w)) mod 2 ^ w.

Definition primes80 : list Z := Eval vm_compute in primes_below 410.

Record params := {
  wbits : Z;                 (* word size: 32 or 64 *)
  K : list Z;                (* round constants, one per round *)
  IV : list Z;               (* initial hash value, 8 words *)
  bigS0 : Z * Z * Z;         (* rotations of the large sigma functions *)
  bigS1 : Z * Z * Z;
  smallS0 : Z * Z * Z;       (* two rotations and a shift *)
  smallS1 : Z * Z * Z;
  outBytes : nat             (* digest length *)
}.

Definition K256 : list Z := Eval vm_compute in map (frac_cbrt 32) (firstn 64 primes80).
Definition IV256 : list Z := Eval vm_compute in map (frac_sqrt 32) (firstn 8 primes80).
Definition K512 : list Z := Eval vm_compute in map (frac_cbrt 64) primes80.
Definition IV512 : list Z := Eval vm_compute in map (frac_sqrt 64) (firstn 8 primes80).
Definition IV384 : list Z :=
  Eval vm_compute in map (frac_sqrt 64) (firstn 8 (skipn 8 primes80)).

Definition sha256_params : params := {|
  wbits := 32; K := K256; IV := IV256;
  bigS0 := (2, 13, 22); bigS1 := (6, 11, 25);
  smallS0 := (7, 18, 3); smallS1 := (17, 19, 10);
  outBytes := 32
|}.

Definition sha512_params : params := {|
  wbits := 64; K := K512; IV := IV512;
  bigS0 := (28, 34, 39); bigS1 := (14, 18, 41);
  smallS0 := (1, 8, 7); smallS1 := (19, 61, 6);
  outBytes := 64
|}.

Definition sha384_params : params := {|
  wbits := 64; K := K512; IV := IV384;
  bigS0 := (28, 34, 39); bigS1 := (14, 18, 41);
  smallS0 := (1, 8, 7); smallS1 := (19, 61, 6);
  outBytes := 48
|}.

Section Core.
Variable P : params.

Definition wordBytes : nat := Z.to_nat (wbits P / 8).
Definition blockBytes : nat := (16 * wordBytes)%nat.

Definition wrap (x : Z) : Z := x mod 2 ^ wbits P.
Definition add (x y : Z) : Z := wrap (x + y).
Definition rotr (n x : Z) : Z :=
  Z.lor (Z.shiftr x n) (wrap (Z.shiftl x (wbits P - n))).
Definition shr (n x : Z) : Z := Z.shiftr x n.
Definition lnot (x : Z) : Z := Z.lxor x (2 ^ wbits P - 1).

Definition Ch (x y z : Z) : Z := Z.lxor (Z.land x y) (Z.land (lnot x) z).
Definition Maj (x y z : Z) : Z :=
  Z.lxor (Z.lxor (Z.land x y) (Z.land x z)) (Z.land y z).
Definition bigSigma (r : Z * Z * Z) (x : Z) : Z :=
  let '(a, b, c) := r in Z.lxor (Z.lxor (rotr a x) (rotr b x)) (rotr c x).
Definition smallSigma (r : Z * Z * Z) (x : Z) : Z :=
  let '(a, b, c) := r in Z.lxor (Z.lxor (rotr a x) (rotr b x)) (shr c x).

(** Big-endian words. *)
Definition word_of_bytes (bs : list Z) : Z :=
  fold_left (fun acc b => acc * 256 + b) bs 0.
Fixpoint bytes_of_word (n : nat) (x : Z) : list Z :=
  match n with
  | O => []
  | S k => bytes_of_word k (x / 256) ++ [x mod 256]
  end.

Fixpoint chunks {A} (fuel n : nat) (l : list A) : list (list A) :=
  match fuel with
  | O => []
  | S f =>
      match l with
      | [] => []
      | _ => firstn n l :: chunks f n (skipn n l)
      end
  end.

(** Padding: a one bit, zeros, and the bit length in the last two words'
    worth of bytes. *)
Definition pad (msg : list Z) : list Z :=
  let len := Z.of_nat (length msg) in
  let blk := Z.of_nat blockBytes in
  let lenBytes := (2 * wordBytes)%nat in
  let zeros := Z.to_nat ((blk - (len + 1 + Z.of_nat lenBytes) mod blk) mod blk) in
  msg ++ [128] ++ repeat 0 zeros ++ bytes_of_word lenBytes (8 * len).

(** One round: [ws] is the window of the sixteen most recent schedule
    words, oldest first. *)
Definition round (st : list Z * list Z) (k : Z) : list Z * list Z :=
  let '(h, ws) := st in
  match h, ws with
  | [a; b; c; d; e; f; g; hh], wt :: _ =>
      let t1 := add (add (add (add hh (bigSigma (bigS1 P) e)) (Ch e f g)) k) wt in
      let t2 := add (bigSigma (bigS0 P) a) (Maj a b c) in
      let wnew :=
        add (add (add (smallSigma (smallS1 P) (nth 14 ws 0)) (nth 9 ws 0))
                 (smallSigma (smallS0 P) (nth 1 ws 0))) wt in
      ([add t1 t2; a; b; c; add d t1; e; f; g], tl ws ++ [wnew])
  | _, _ => st
  end.

Definition compress (h : list Z) (block : list Z) : list Z :=
  let ws := map word_of_bytes (chunks 16 wordBytes block) in
  let '(h', _) := fold_left round (K P) (h, ws) in
  map (fun p => add (fst p) (snd p)) (combine h h').

Definition sum (msg : list Z) : list Z :=
  let padded := pad msg in
  let blocks := chunks (length padded) blockBytes padded in
  let h := fold_left compress blocks (IV P) in
  firstn (outBytes P) (concat (map (bytes_of_word wordBytes) h)).

End Core.

Definition sha256 (s : string) : string := string_of_bytes (sum sha256_params (bytes_of_string s)).
Definition sha384 (s : string) : string := string_of_bytes (sum sha384_params (bytes_of_string s)).
Definition sha512 (s : string) : string := string_of_bytes (sum sha512_params (bytes_of_string s)).

End SHA2.

(** ** crypto/hmac (RFC 2104) *)

Inductive Hash := SHA256 | SHA384 | SHA512.

Definition Hash_New (h : Hash) : string -> string :=
  match h with
  | SHA256 => SHA2.sha256
  | SHA384 => SHA2.sha384
  | SHA512 => SHA2.sha512
  end.

Definition Hash_BlockSize (h : Hash) : nat :=
  match h with
  | SHA256 => 64
  | SHA384 | SHA512 => 128
  end%nat.

Module hmac.

Definition xor_byte (c : Z) (a : ascii) : ascii := byte_of_Z (Z.lxor (Z_of_byte a) c).

Fixpoint xor_pad (c : Z) (s : string) : string :=
  match s with
  | EmptyString => EmptyString
  | String a s' => String (xor_byte c a) (xor_pad c s')
  end.

Fixpoint zeros (n : nat) : string :=
  match n with
  | O => EmptyString
  | S k => String zero (zeros k)
  end.

(** hmac.New: a key longer than the block is replaced by its digest, and
    the key is then filled up with zero bytes to the block size. *)
Definition keyBlock (h : Hash) (key : string) : string :=
  let k := if (Hash_BlockSize h <? String.length key)%nat then Hash_New h key else key in
  k +:+ zeros (Hash_BlockSize h - String.length k).

(** hmac.New(h, key); Write(msg); Sum(nil) *)
Definition Sum (h : Hash) (key msg : string) : string :=
  let kb := keyBlock h key in
  Hash_New h (xor_pad 92 kb +:+ Hash_New h (xor_pad 54 kb +:+ msg)).

(** hmac.Equal *)
Definition Equal (mac1 mac2 : string) : bool := String.eqb mac1 mac2.

End hmac.

(** ** encoding/base64: RawURLEncoding *)

Module base64.

Definition encodeURL : string :=
  "ABCDEFGHIJKLMNOPQRSTUVWXYZabcdefghijklmnopqrstuvwxyz0123456789-_".

(** Six bits, most significant first. *)
Definition sextet : Type := bool * bool * bool * bool * bool * bool.

Definition sextet_index (s : sextet) : nat :=
  let '(b5, b4, b3, b2, b1, b0) := s in
  (Nat.b2n b5 * 32 + Nat.b2n b4 * 16 + Nat.b2n b3 * 8 + Nat.b2n b2 * 4
   + Nat.b2n b1 * 2 + Nat.b2n b0)%nat.

Definition sextet_of_index (n : nat) : sextet :=
  (Nat.testbit n 5, Nat.testbit n 4, Nat.testbit n 3,
   Nat.testbit n 2, Nat.testbit n 1, Nat.testbit n 0).

Definition enc (s : sextet) : ascii :=
  nth (sextet_index s) (list_ascii_of_string encodeURL) "A"%char.

Fixpoint index_of (c : ascii) (l : list ascii) : option nat :=
  match l with
  | [] => None
  | x :: l' => if Ascii.eqb c x then Some O else option_map S (index_of c l')
  end.

Definition dec (c : ascii) : option sextet :=
  option_map sextet_of_index (index_of c (list_ascii_of_string encodeURL)).

(** Three bytes give four characters; one or two trailing bytes give two
    or three characters and no padding. *)
Fixpoint encode (l : list ascii) : list ascii :=
  match l with
  | Ascii a0 a1 a2 a3 a4 a5 a6 a7
      :: Ascii b0 b1 b2 b3 b4 b5 b6 b7
      :: Ascii c0 c1 c2 c3 c4 c5 c6 c7 :: rest =>
      enc (a7, a6, a5, a4, a3, a2) :: enc (a1, a0, b7, b6, b5, b4)
      :: enc (b3, b2, b1, b0, c7, c6) :: enc (c5, c4, c3, c2, c1, c0)
      :: encode rest
  | [Ascii a0 a1 a2 a3 a4 a5 a6 a7; Ascii b0 b1 b2 b3 b4 b5 b6 b7] =>
      [enc (a7, a6, a5, a4, a3, a2); enc (a1, a0, b7, b6, b5, b4);
       enc (b3, b2, b1, b0, false, false)]
  | [Ascii a0 a1 a2 a3 a4 a5 a6 a7] =>
      [enc (a7, a6, a5, a4, a3, a2); enc (a1, a0, false, false, false, false)]
  | [] => []
  end.

Definition byte1 (s t : sextet) : ascii :=
  let '(a7, a6, a5, a4, a3, a2) := s in
  let '(a1, a0, _, _, _, _) := t in
  Ascii a0 a1 a2 a3 a4 a5 a6 a7.
Definition byte2 (t u : sextet) : ascii :=
  let '(_, _, b7, b6, b5, b4) := t in
  let '(b3, b2, b1, b0, _, _) := u in
  Ascii b0 b1 b2 b3 b4 b5 b6 b7.
Definition byte3 (u v : sextet) : ascii :=
  let '(_, _, _, _, c7, c6) := u in
  let '(c5, c4, c3, c2, c1, c0) := v in
  Ascii c0 c1 c2 c3 c4 c5 c6 c7.

(** Decoding is not strict: the unused low bits of a final short group
    are ignored; a single trailing character or a character outside the
    alphabet is an error. *)
Fixpoint decode (l : list ascii) : option (list ascii) :=
  match l with
  | [] => Some []
  | [_] => None
  | [x; y] =>
      match dec x, dec y with
      | Some s, Some t => Some [byte1 s t]
      | _, _ => None
      end
  | [x; y; z] =>
      match dec x, dec y, dec z with
      | Some s, Some t, Some u => Some [byte1 s t; byte2 t u]
      | _, _, _ => None
      end
  | x :: y :: z :: q :: rest =>
      match dec x, dec y, dec z, dec q, decode rest with
      | Some s, Some t, Some u, Some v, Some r =>
          Some (byte1 s t :: byte2 t u :: byte3 u v :: r)
      | _, _, _, _, _ => None
      end
  end.

Definition isNewline (c : ascii) : bool :=
  Ascii.eqb c "010"%char || Ascii.eqb c "013"%char.

(** RawURLEncoding.EncodeToString *)
Definition EncodeToString (src : string) : string :=
  string_of_list_ascii (encode (list_ascii_of_string src)).

(** RawURLEncoding.DecodeString: carriage returns and line feeds in the
    input are skipped. *)
Definition DecodeString (s : string) : option string :=
  option_map string_of_list_ascii
    (decode (filter (fun c => negb (isNewline c)) (list_ascii_of_string s))).

End base64.

(** ** strings *)

Module strings.

Fixpoint HasPrefix (s prefix : string) : bool :=
  match prefix, s with
  | EmptyString, _ => true
  | String p prefix', String c s' => Ascii.eqb c p && HasPrefix s' prefix'
  | String _ _, EmptyString => false
  end.

Definition TrimPrefix (s prefix : string) : string :=
  if HasPrefix s prefix
  then String.substring (String.length prefix) (String.length s - String.length prefix) s
  else s.

(** strings.Split(s, sep) for a separator of one byte. *)
Fixpoint SplitByte (s : string) (sep : ascii) : list string :=
  match s with
  | EmptyString => [EmptyString]
  | String c s' =>
      if Ascii.eqb c sep then EmptyString :: SplitByte s' sep
      else
        match SplitByte s' sep with
        | p :: ps => String c p :: ps
        | [] => [String c EmptyString]
        end
  end.

(** strings.Join *)
Fixpoint Join (elems : list string) (sep : string) : string :=
  match elems with
  | [] => EmptyString
  | [x] => x
  | x :: rest => x +:+ sep +:+ Join rest sep
  end.

End strings.

Definition hex_digit (n : Z) : ascii :=
  nth (Z.to_nat n) (list_ascii_of_string "0123456789abcdef") "0"%char.
Definition hex (s : string) : string :=
  string_of_list_ascii
    (flat_map (fun b => [hex_digit (b / 16); hex_digit (b mod 16)]) (bytes_of_string s)).


(** ** errors, fmt, time *)

(** A Go error value: its message ([Error()]) and the errors it wraps. *)
#[local] Set Warnings "-register-all".
Inductive error := mkError (msg : string) (wraps : list error).

Definition Error (e : error) : string := let 'mkError m _ := e in m.
Definition Unwrap (e : error) : list error := let 'mkError _ w := e in w.

(** A Go result pair [(v, err)] of which exactly one side is set. *)
Inductive result (A : Type) := Ok (a : A) | Fail (e : error).
Arguments Ok {A} a.
Arguments Fail {A} e.

Module errors.
Definition New (text : string) : error := mkError text [].
End errors.

Module fmt.
(** fmt.Errorf(prefix + "%w", err) *)
Definition Errorf_w (prefix : string) (err : error) : error :=
  mkError (prefix +:+ Error err) [err].
(** fmt.Errorf(text) *)
Definition Errorf (text : string) : error := mkError text [].
(** fmt.Sprintf("%d", n) *)
Definition Sprintf_d (n : Z) : string := NilZero.string_of_int (Z.to_int n).
End fmt.

(** time.Time as nanoseconds since the Unix epoch, time.Duration as
    nanoseconds. Every call of time.Now() in the source is an argument of
    the embedded function: the instant the clock returns at that call. *)
Definition Time := Z.
Definition Duration := Z.

Module time.
Definition Second : Duration := 1000000000.
Definition Minute : Duration := 60 * Second.
Definition Hour : Duration := 60 * Minute.
Definition Add (t : Time) (d : Duration) : Time := t + d.
Definition Before (t u : Time) : bool := t <? u.
(** int64(d.Seconds()): the whole seconds of d, rounded toward zero. The
    float64 in between is exact for a duration of whole seconds. *)
Definition Seconds_int64 (d : Duration) : Z := Z.quot d Second.
End time.

(** ** encoding/json, by its contract *)

(** encoding/json is used through Marshal and Unmarshal at two types (the
    token header and the claims). *)
Class JSON (A : Type) := {
  Marshal : A -> string;
  Unmarshal : string -> result A
}.

(** What the token code relies on: unmarshalling a marshalled value gives
    the value back. Strings stand for the UTF-8 text that the request
    binding and the store deliver, and numeric dates are whole seconds, for
    which encoding/json and the NumericDate methods have this property. *)
Class LawfulJSON (A : Type) `{JSON A} : Prop :=
  Unmarshal_Marshal : forall a : A, Unmarshal (Marshal a) = Ok a.

(** ** github.com/golang-jwt/jwt/v5 *)

Module jwtlib.

(** A NumericDate holds a time truncated to TimePrecision, one second:
    it is kept as whole seconds since the epoch. *)
Definition NumericDate := Z.
Definition NewNumericDate (t : Time) : NumericDate := t / time.Second.
Definition NumericDate_Time (d : NumericDate) : Time := d * time.Second.

Record RegisteredClaims := {
  Issuer : string;
  Subject : string;
  Audience : list string;
  ExpiresAt : option NumericDate;
  NotBefore : option NumericDate;
  IssuedAt : option NumericDate;
  ID : string
}.

(** The header fields the code reads: Header["alg"].(string) and
    Header["typ"].(string), None when the assertion fails. *)
Record Header := { alg : option string; typ : option string }.

Inductive SigningMethod :=
| SigningMethodHMAC (Name : string) (H : Hash)
| SigningMethodRSA (Name : string)
| SigningMethodRSAPSS (Name : string)
| SigningMethodECDSA (Name : string)
| SigningMethodEd25519
| signingMethodNone.

Definition SigningMethodHS256 := SigningMethodHMAC "HS256" SHA256.
Definition SigningMethodHS384 := SigningMethodHMAC "HS384" SHA384.
Definition SigningMethodHS512 := SigningMethodHMAC "HS512" SHA512.

Definition Alg (m : SigningMethod) : string :=
  match m with
  | SigningMethodHMAC n _ | SigningMethodRSA n | SigningMethodRSAPSS n
  | SigningMethodECDSA n => n
  | SigningMethodEd25519 => "EdDSA"
  | signingMethodNone => "none"
  end.

(** The methods registered by the package's init functions. *)
Definition signingMethods : list SigningMethod :=
  [ SigningMethodHS256; SigningMethodHS384; SigningMethodHS512;
    SigningMethodRSA "RS256"; SigningMethodRSA "RS384"; SigningMethodRSA "RS512";
    SigningMethodRSAPSS "PS256"; SigningMethodRSAPSS "PS384"; SigningMethodRSAPSS "PS512";
    SigningMethodECDSA "ES256"; SigningMethodECDSA "ES384"; SigningMethodECDSA "ES512";
    SigningMethodEd25519; signingMethodNone ].

Definition GetSigningMethod (a : string) : option SigningMethod :=
  find (fun m => String.eqb (Alg m) a) signingMethods.

Definition ErrInvalidKeyType := errors.New "key is of invalid type".
Definition ErrSignatureInvalid := errors.New "signature is invalid".
Definition ErrTokenMalformed := errors.New "token is malformed".
Definition ErrTokenUnverifiable := errors.New "token is unverifiable".
Definition ErrTokenSignatureInvalid := errors.New "token signature is invalid".
Definition ErrTokenExpired := errors.New "token is expired".
Definition ErrTokenNotValidYet := errors.New "token is not valid yet".
Definition ErrTokenInvalidClaims := errors.New "token has invalid claims".
(** newError(message, err, more...) *)
Definition newError (message : string) (err : error) (more : list error) : error :=
  let head := if String.eqb message EmptyString then Error err
              else Error err +:+ ": " +:+ message in
  mkError (fold_left (fun acc e => acc +:+ ": " +:+ Error e) more head) (err :: more).

Definition NoneSignatureTypeDisallowedError :=
  newError "'none' signature type is not allowed" ErrTokenUnverifiable [].

(** joinErrors(errs...) *)
Definition joinErrors (errs : list error) : error :=
  mkError (strings.Join (map Error errs) ", ") errs.

(** Keys are byte slices throughout this program. *)
Definition Sign (m : SigningMethod) (signingString key : string) : result string :=
  match m with
  | SigningMethodHMAC _ h => Ok (hmac.Sum h key signingString)
  | signingMethodNone => Fail NoneSignatureTypeDisallowedError
  | _ => Fail ErrInvalidKeyType
  end.

Definition Verify (m : SigningMethod) (signingString sig key : string) : option error :=
  match m with
  | SigningMethodHMAC _ h =>
      if hmac.Equal sig (hmac.Sum h key signingString) then None
      else Some ErrSignatureInvalid
  | signingMethodNone => Some NoneSignatureTypeDisallowedError
  | _ => Some ErrInvalidKeyType
  end.

(** Cause of a failed base64 decoding (the byte offset is not kept). *)
Definition CorruptInputError := errors.New "illegal base64 data".

Definition EncodeSegment (seg : string) : string := base64.EncodeToString seg.
Definition DecodeSegment (seg : string) : result string :=
  match base64.DecodeString seg with
  | Some b => Ok b
  | None => Fail CorruptInputError
  end.

Section Token.
(** The claims type of the caller, with its embedded RegisteredClaims
    (through which it implements the Claims interface). *)
Context {C : Type} (registered : C -> RegisteredClaims).
Context `{!JSON Header} `{!JSON C}.

Record Token := {
  Raw : string;
  Method : SigningMethod;
  TokenHeader : Header;
  TokenClaims : C;
  Signature : string;
  Valid : bool
}.

Definition Keyfunc := Token -> result string.

Definition NewWithClaims (method : SigningMethod) (claims : C) : Token := {|
  Raw := EmptyString;
  Method := method;
  TokenHeader := {| alg := Some (Alg method); typ := Some "JWT" |};
  TokenClaims := claims;
  Signature := EmptyString;
  Valid := false
|}.

Definition SigningString (t : Token) : string :=
  EncodeSegment (Marshal (TokenHeader t)) +:+ "." +:+ EncodeSegment (Marshal (TokenClaims t)).

Definition SignedString (t : Token) (key : string) : result string :=
  let sstr := SigningString t in
  match Sign (Method t) sstr key with
  | Ok sig => Ok (sstr +:+ "." +:+ EncodeSegment sig)
  | Fail e => Fail e
  end.

(** Validator.Validate with the default options: exp and nbf are checked
    when present, against the instant [now] read from the clock. *)
Definition verifyExpiresAt (r : RegisteredClaims) (now : Time) : option error :=
  match ExpiresAt r with
  | None => None
  | Some exp => if time.Before now (NumericDate_Time exp) then None else Some ErrTokenExpired
  end.

Definition verifyNotBefore (r : RegisteredClaims) (now : Time) : option error :=
  match NotBefore r with
  | None => None
  | Some nbf => if negb (time.Before now (NumericDate_Time nbf)) then None
                else Some ErrTokenNotValidYet
  end.

Definition Validate (now : Time) (claims : C) : option error :=
  let errs := option_list (verifyExpiresAt (registered claims) now)
              ++ option_list (verifyNotBefore (registered claims) now) in
  match errs with
  | [] => None
  | _ => Some (joinErrors errs)
  end.

(** Parser.ParseUnverified *)
Definition ParseUnverified (tokenString : string) : result (Token * list string) :=
  let parts := strings.SplitByte tokenString "." in
  match parts with
  | [p0; p1; p2] =>
      match DecodeSegment p0 with
      | Fail e => Fail (newError "could not base64 decode header" ErrTokenMalformed [e])
      | Ok headerBytes =>
          match Unmarshal headerBytes with
          | Fail e => Fail (newError "could not JSON decode header" ErrTokenMalformed [e])
          | Ok header =>
              match DecodeSegment p1 with
              | Fail e => Fail (newError "could not base64 decode claim" ErrTokenMalformed [e])
              | Ok claimBytes =>
                  match Unmarshal claimBytes with
                  | Fail e => Fail (newError "could not JSON decode claim" ErrTokenMalformed [e])
                  | Ok claims =>
                      match alg header with
                      | Some method =>
                          match GetSigningMethod method with
                          | Some m =>
                              Ok ({| Raw := tokenString; Method := m; TokenHeader := header;
                                     TokenClaims := claims; Signature := EmptyString;
                                     Valid := false |}, parts)
                          | None =>
                              Fail (newError "signing method (alg) is unavailable"
                                      ErrTokenUnverifiable [])
                          end
                      | None =>
                          Fail (newError "signing method (alg) is unspecified"
                                  ErrTokenUnverifiable [])
                      end
                  end
              end
          end
      end
  | _ => Fail (newError "token contains an invalid number of segments" ErrTokenMalformed [])
  end.

(** Parser.ParseWithClaims (v5.2), with the default parser options. *)
Definition ParseWithClaims (now : Time) (tokenString : string) (keyFunc : Keyfunc)
  : result Token :=
  match ParseUnverified tokenString with
  | Fail e => Fail e
  | Ok (token, parts) =>
      match DecodeSegment (nth 2 parts EmptyString) with
      | Fail e => Fail (newError "could not base64 decode signature" ErrTokenMalformed [e])
      | Ok sig =>
          let token := {| Raw := Raw token; Method := Method token;
                          TokenHeader := TokenHeader token; TokenClaims := TokenClaims token;
                          Signature := sig; Valid := false |} in
          let text := strings.Join (firstn 2 parts) "." in
          match keyFunc token with
          | Fail e => Fail (newError "error while executing keyfunc" ErrTokenUnverifiable [e])
          | Ok key =>
              match Verify (Method token) text sig key with
              | Some e => Fail (newError EmptyString ErrTokenSignatureInvalid [e])
              | None =>
                  match Validate now (TokenClaims token) with
                  | Some e => Fail (newError EmptyString ErrTokenInvalidClaims [e])
                  | None =>
                      Ok {| Raw := Raw token; Method := Method token;
                            TokenHeader := TokenHeader token;
                            TokenClaims := TokenClaims token;
                            Signature := sig; Valid := true |}
                  end
              end
          end
      end
  end.

End Token.

End jwtlib.

(** ** shared/jwt *)

Module jwt.
Import jwtlib.

(** TokenType represents the type of JWT token *)
Definition TokenType := string.
Definition AccessToken : TokenType := "access".
Definition RefreshToken : TokenType := "refresh".

(** Claims represents the JWT claims *)
Record Claims := {
  UserID : Z;
  Email : string;
  Username : string;
  Type_ : TokenType;     (* the Go field Type *)
  Registered : RegisteredClaims
}.

(** TokenPair represents access and refresh tokens *)
Record TokenPair := {
  pairAccessToken : string;
  pairRefreshToken : string;
  ExpiresIn : Z
}.

(** JWTManager handles JWT operations *)
Record JWTManager := {
  secretKey : string;
  accessTokenDuration : Duration;
  refreshTokenDuration : Duration
}.

Definition NewJWTManager (secretKey : string) (accessDuration refreshDuration : Duration)
  : JWTManager :=
  {| secretKey := secretKey;
     accessTokenDuration := accessDuration;
     refreshTokenDuration := refreshDuration |}.

Section Manager.
Context `{!JSON Header} `{!JSON Claims}.

(** The claims generateToken builds at the instant [now]. *)
Definition newClaims (now : Time) (userID : Z) (email username : string)
    (tokenType : TokenType) (duration : Duration) : Claims :=
  {| UserID := userID;
     Email := email;
     Username := username;
     Type_ := tokenType;
     Registered :=
       {| Subject := fmt.Sprintf_d userID;
          IssuedAt := Some (NewNumericDate now);
          ExpiresAt := Some (NewNumericDate (time.Add now duration));
          NotBefore := Some (NewNumericDate now);
          Issuer := "rhythmify-auth";
          Audience := [];
          ID := EmptyString |} |}.

(** The last two statements of generateToken: the claims are put in a
    token for HS256 and signed with the manager's secret. *)
Definition signClaims (j : JWTManager) (claims : Claims) : result string :=
  let token := NewWithClaims SigningMethodHS256 claims in
  SignedString token (secretKey j).

(** generateToken creates a JWT token with the given parameters *)
Definition generateToken (j : JWTManager) (now : Time) (userID : Z)
    (email username : string) (tokenType : TokenType) (duration : Duration)
  : result string :=
  let claims := newClaims now userID email username tokenType duration in
  signClaims j claims.

(** GenerateTokenPair generates both access and refresh tokens; [nowA]
    and [nowR] are the clock readings of the two generateToken calls. *)
Definition GenerateTokenPair (j : JWTManager) (nowA nowR : Time) (userID : Z)
    (email username : string) : result TokenPair :=
  match generateToken j nowA userID email username AccessToken (accessTokenDuration j) with
  | Fail err => Fail (fmt.Errorf_w "failed to generate access token: " err)
  | Ok accessToken =>
      match generateToken j nowR userID email username RefreshToken
              (refreshTokenDuration j) with
      | Fail err => Fail (fmt.Errorf_w "failed to generate refresh token: " err)
      | Ok refreshToken =>
          Ok {| pairAccessToken := accessToken;
                pairRefreshToken := refreshToken;
                ExpiresIn := time.Seconds_int64 (accessTokenDuration j) |}
      end
  end.

(** The key function handed to ParseWithClaims. *)
Definition keyfunc (j : JWTManager) (token : Token (C := Claims)) : result string :=
  match Method token with
  | SigningMethodHMAC _ _ => Ok (secretKey j)
  | _ =>
      Fail (fmt.Errorf ("unexpected signing method: "
                        +:+ default EmptyString (alg (TokenHeader token))))
  end.

(** ValidateToken validates and parses a JWT token; [now] is the clock
    reading of the library's claims validation. *)
Definition ValidateToken (j : JWTManager) (now : Time) (tokenString : string)
  : result Claims :=
  match ParseWithClaims Registered now tokenString (keyfunc j) with
  | Fail err => Fail (fmt.Errorf_w "failed to parse token: " err)
  | Ok token =>
      if negb (Valid token) then Fail (errors.New "invalid token")
      else Ok (TokenClaims token)
  end.

(** RefreshAccessToken generates a new access token using refresh token *)
Definition RefreshAccessToken (j : JWTManager) (now nowA nowR : Time)
    (refreshTokenString : string) : result TokenPair :=
  match ValidateToken j now refreshTokenString with
  | Fail err => Fail (fmt.Errorf_w "invalid refresh token: " err)
  | Ok claims =>
      if negb (String.eqb (Type_ claims) RefreshToken)
      then Fail (errors.New "token is not a refresh token")
      else GenerateTokenPair j nowA nowR (UserID claims) (Email claims) (Username claims)
  end.

End Manager.

End jwt.

(** ** shared/response and the gin context *)

Module gin.

(** Values stored under c.Set. *)
Inductive any :=
| anyInt64 (n : Z)
| anyString (s : string)
| anyClaims (c : jwt.Claims).

(** ErrorResponse represents an error response *)
Record ErrorResponse := {
  Success : bool;
  ErrorText : string;
  Code : string
}.

(** The part of gin.Context the middleware touches: the Authorization
    request header ([EmptyString] when absent), the Keys map, the abort
    flag and the responses written so far. *)
Record Context := {
  Authorization : string;
  Keys : gmap string any;
  aborted : bool;
  written : list (Z * ErrorResponse)
}.

Definition GetHeader_Authorization (c : Context) : string := Authorization c.

Definition Set_ (key : string) (value : any) (c : Context) : Context :=
  {| Authorization := Authorization c;
     Keys := <[key := value]> (Keys c);
     aborted := aborted c;
     written := written c |}.

Definition Get (key : string) (c : Context) : option any := Keys c !! key.

Definition Abort (c : Context) : Context :=
  {| Authorization := Authorization c;
     Keys := Keys c;
     aborted := true;
     written := written c |}.

Definition JSON_ (statusCode : Z) (body : ErrorResponse) (c : Context) : Context :=
  {| Authorization := Authorization c;
     Keys := Keys c;
     aborted := aborted c;
     written := written c ++ [(statusCode, body)] |}.

(** A handler; its first argument is what c.Next() runs: the rest of the
    handler chain. *)
Definition HandlerFunc := (Context -> Context) -> Context -> Context.

End gin.

Module response.
Import gin.

Definition StatusUnauthorized : Z := 401.

(** ErrorResponseWithCode sends an error response with custom error code *)
Definition ErrorResponseWithCode (c : Context) (statusCode : Z) (error code : string)
  : Context :=
  JSON_ statusCode {| Success := false; ErrorText := error; Code := code |} c.

(** Unauthorized sends a 401 Unauthorized response *)
Definition Unauthorized (c : Context) (error : string) : Context :=
  ErrorResponseWithCode c StatusUnauthorized error "UNAUTHORIZED".

End response.

(** ** services/auth-service/internal/middleware *)

Module middleware.
Import gin.

Section Middleware.
Context `{!JSON jwtlib.Header} `{!JSON jwt.Claims}.

(** Store user information in context *)
Definition storeUser (claims : jwt.Claims) (c : Context) : Context :=
  Set_ "user_claims" (anyClaims claims)
    (Set_ "user_username" (anyString (jwt.Username claims))
       (Set_ "user_email" (anyString (jwt.Email claims))
          (Set_ "user_id" (anyInt64 (jwt.UserID claims)) c))).

(** JWTMiddleware creates a JWT authentication middleware *)
Definition JWTMiddleware (jwtManager : jwt.JWTManager) (now : Time) : HandlerFunc :=
  fun next c =>
    let authHeader := GetHeader_Authorization c in
    if String.eqb authHeader EmptyString then
      Abort (response.Unauthorized c "Authorization header is required")
    else if negb (strings.HasPrefix authHeader "Bearer ") then
      Abort (response.Unauthorized c "Authorization header must start with 'Bearer '")
    else
      let tokenString := strings.TrimPrefix authHeader "Bearer " in
      if String.eqb tokenString EmptyString then
        Abort (response.Unauthorized c "Token is required")
      else
        match jwt.ValidateToken jwtManager now tokenString with
        | Fail _ => Abort (response.Unauthorized c "Invalid or expired token")
        | Ok claims =>
            if negb (String.eqb (jwt.Type_ claims) jwt.AccessToken) then
              Abort (response.Unauthorized c "Invalid token type")
            else next (storeUser claims c)
        end.

(** OptionalJWTMiddleware creates an optional JWT middleware (doesn't
    fail if no token) *)
Definition OptionalJWTMiddleware (jwtManager : jwt.JWTManager) (now : Time) : HandlerFunc :=
  fun next c =>
    let authHeader := GetHeader_Authorization c in
    if String.eqb authHeader EmptyString then next c
    else if negb (strings.HasPrefix authHeader "Bearer ") then next c
    else
      let tokenString := strings.TrimPrefix authHeader "Bearer " in
      if String.eqb tokenString EmptyString then next c
      else
        match jwt.ValidateToken jwtManager now tokenString with
        | Fail _ => next c
        | Ok claims =>
            if negb (String.eqb (jwt.Type_ claims) jwt.AccessToken) then next c
            else next (storeUser claims c)
        end.

(** GetUserIDFromContext extracts user ID from Gin context *)
Definition GetUserIDFromContext (c : Context) : Z * bool :=
  match Get "user_id" c with
  | None => (0, false)
  | Some (anyInt64 id) => (id, true)
  | Some _ => (0, false)
  end.

(** GetUserClaimsFromContext extracts full user claims from Gin context *)
Definition GetUserClaimsFromContext (c : Context) : option jwt.Claims * bool :=
  match Get "user_claims" c with
  | None => (None, false)
  | Some (anyClaims claims) => (Some claims, true)
  | Some _ => (None, false)
  end.

(** GetUserEmailFromContext extracts user email from Gin context *)
Definition GetUserEmailFromContext (c : Context) : string * bool :=
  match Get "user_email" c with
  | None => (EmptyString, false)
  | Some (anyString email) => (email, true)
  | Some _ => (EmptyString, false)
  end.

(** GetUserUsernameFromContext extracts username from Gin context *)
Definition GetUserUsernameFromContext (c : Context) : string * bool :=
  match Get "user_username" c with
  | None => (EmptyString, false)
  | Some (anyString username) => (username, true)
  | Some _ => (EmptyString, false)
  end.

(** RequireAuth is a helper middleware that requires authentication *)
Definition RequireAuth : HandlerFunc :=
  fun next c =>
    let (_, found) := GetUserIDFromContext c in
    if negb found then Abort (response.Unauthorized c "Authentication required")
    else next c.

End Middleware.

End middleware.

(** ** golang.org/x/crypto/bcrypt, as an interface *)

Class Bcrypt := {
  (** bcrypt.CompareHashAndPassword(hash, password): None is the nil error *)
  CompareHashAndPassword : string -> string -> option error
}.

(** bcrypt.GenerateFromPassword(password, bcrypt.DefaultCost) *)
Class BcryptGenerate := {
  GenerateFromPassword : string -> result string
}.

(** ** services/auth-service/internal/models *)

Module models.

(** User represents a user in the system *)
Record User := {
  ID : Z;
  Email : string;
  Username : string;
  Password : string;
  TelegramID : option Z;
  CreatedAt : Time;
  UpdatedAt : Time
}.

(** LoginRequest represents login request *)
Record LoginRequest := {
  reqEmail : string;
  reqPassword : string
}.

(** LinkTelegramRequest represents request to link Telegram account *)
Record LinkTelegramRequest := {
  reqTelegramID : Z
}.

(** UserResponse represents user data in responses (without sensitive info) *)
Record UserResponse := {
  respID : Z;
  respEmail : string;
  respUsername : string;
  respTelegramID : option Z;
  respCreatedAt : Time;
  respUpdatedAt : Time
}.

(** CheckPassword compares the provided password with the user's hashed
    password *)
Definition CheckPassword `{!Bcrypt} (u : User) (password : string) : bool :=
  match CompareHashAndPassword (Password u) password with
  | None => true
  | Some _ => false
  end.

(** ToResponse converts User to UserResponse (removes sensitive data) *)
Definition ToResponse (u : User) : UserResponse :=
  {| respID := ID u;
     respEmail := Email u;
     respUsername := Username u;
     respTelegramID := TelegramID u;
     respCreatedAt := CreatedAt u;
     respUpdatedAt := UpdatedAt u |}.

(** CreateUserRequest represents request to create a new user *)
Record CreateUserRequest := {
  createEmail : string;
  createUsername : string;
  createPassword : string
}.

(** UpdateUserRequest represents request to update user profile; a nil
    pointer is [None]. *)
Record UpdateUserRequest := {
  patchUsername : option string;
  patchEmail : option string
}.

(** The zero time.Time (January 1, year 1, 00:00 UTC). *)
Definition zeroTime : Time := -62135596800 * time.Second.

(** HashPassword hashes the user's password using bcrypt; the result is the
    error and the user as the call leaves it. *)
Definition HashPassword `{!BcryptGenerate} (u : User) : option error * User :=
  match GenerateFromPassword (Password u) with
  | Fail err => (Some err, u)
  | Ok hashedPassword =>
      (None,
       {| ID := ID u; Email := Email u; Username := Username u;
          Password := hashedPassword; TelegramID := TelegramID u;
          CreatedAt := CreatedAt u; UpdatedAt := UpdatedAt u |})
  end.

End models.

(** ** services/auth-service/internal/repository *)

Module repository.
Import models.

(** UserRepository defines the interface for user repository operations.
    [R] is the state behind an implementation; every operation is a round
    trip to the store and returns the state after it. Only the operations
    used by the service functions embedded below are listed. *)
Class UserRepository (R : Type) := {
  GetByEmail : R -> string -> result User * R;
  GetByTelegramID : R -> Z -> result User * R;
  LinkTelegram : R -> Z -> Z -> option error * R
}.

(** The database behind postgresUserRepository: the rows of table users,
    the clock of the server (NOW()), and for each coming statement
    whether the connection fails it, and with which error. *)
Record pgxpool := {
  users : list User;
  NOW : Time;
  faults : list (option error)
}.

(** The connection's verdict on the next statement. *)
Definition roundTrip (db : pgxpool) : option error * pgxpool :=
  match faults db with
  | [] => (None, db)
  | f :: fs => (f, {| users := users db; NOW := NOW db; faults := fs |})
  end.

(** GetByEmail retrieves a user by their email *)
Definition pgGetByEmail (db : pgxpool) (email : string) : result User * pgxpool :=
  let (err, db') := roundTrip db in
  match err with
  | Some e => (Fail (fmt.Errorf_w "failed to get user by email: " e), db')
  | None =>
      match find (fun u => String.eqb (Email u) email) (users db) with
      | Some user => (Ok user, db')
      | None => (Fail (fmt.Errorf ("user with email " +:+ email +:+ " not found")), db')
      end
  end.

(** GetByTelegramID retrieves a user by their Telegram ID *)
Definition pgGetByTelegramID (db : pgxpool) (telegramID : Z) : result User * pgxpool :=
  let (err, db') := roundTrip db in
  match err with
  | Some e => (Fail (fmt.Errorf_w "failed to get user by telegram_id: " e), db')
  | None =>
      match find (fun u => bool_decide (TelegramID u = Some telegramID)) (users db) with
      | Some user => (Ok user, db')
      | None =>
          (Fail (fmt.Errorf ("user with telegram_id " +:+ fmt.Sprintf_d telegramID
                             +:+ " not found")), db')
      end
  end.

(** LinkTelegram links a Telegram ID to a user *)
Definition pgLinkTelegram (db : pgxpool) (userID telegramID : Z) : option error * pgxpool :=
  let (err, db') := roundTrip db in
  match err with
  | Some e => (Some (fmt.Errorf_w "failed to link telegram: " e), db')
  | None =>
      let rowsAffected := length (filter (fun u => ID u =? userID) (users db)) in
      if (rowsAffected =? 0)%nat then
        (Some (fmt.Errorf ("user with id " +:+ fmt.Sprintf_d userID +:+ " not found")), db')
      else
        (None,
         {| users :=
              map (fun u =>
                     if ID u =? userID then
                       {| ID := ID u; Email := Email u; Username := Username u;
                          Password := Password u; TelegramID := Some telegramID;
                          CreatedAt := CreatedAt u; UpdatedAt := NOW db |}
                     else u) (users db);
            NOW := NOW db';
            faults := faults db' |})
  end.

#[export] Instance postgresUserRepository : UserRepository pgxpool := {|
  GetByEmail := pgGetByEmail;
  GetByTelegramID := pgGetByTelegramID;
  LinkTelegram := pgLinkTelegram
|}.

(** The other operations of the UserRepository interface. Create and
    Update fill in fields of the user they are given: they return the
    error together with the user as the call leaves it. *)
Class UserRepositoryOps (R : Type) := {
  Create : R -> User -> (option error * User) * R;
  GetByID : R -> Z -> result User * R;
  GetByUsername : R -> string -> result User * R;
  Update : R -> User -> (option error * User) * R;
  Delete : R -> Z -> option error * R;
  CheckEmailExists : R -> string -> result bool * R;
  CheckUsernameExists : R -> string -> result bool * R
}.

(** GetByID retrieves a user by their ID *)
Definition pgGetByID (db : pgxpool) (id : Z) : result User * pgxpool :=
  let (err, db') := roundTrip db in
  match err with
  | Some e => (Fail (fmt.Errorf_w "failed to get user by id: " e), db')
  | None =>
      match find (fun u => ID u =? id) (users db) with
      | Some user => (Ok user, db')
      | None =>
          (Fail (fmt.Errorf ("user with id " +:+ fmt.Sprintf_d id +:+ " not found")), db')
      end
  end.

(** GetByUsername retrieves a user by their username *)
Definition pgGetByUsername (db : pgxpool) (username : string) : result User * pgxpool :=
  let (err, db') := roundTrip db in
  match err with
  | Some e => (Fail (fmt.Errorf_w "failed to get user by username: " e), db')
  | None =>
      match find (fun u => String.eqb (Username u) username) (users db) with
      | Some user => (Ok user, db')
      | None =>
          (Fail (fmt.Errorf ("user with username " +:+ username +:+ " not found")), db')
      end
  end.

(** Delete soft deletes a user (placeholder for future implementation):
    no statement is sent. *)
Definition pgDelete (db : pgxpool) (id : Z) : option error * pgxpool :=
  (Some (fmt.Errorf "delete operation not implemented yet"), db).

(** CheckEmailExists checks if email already exists *)
Definition pgCheckEmailExists (db : pgxpool) (email : string) : result bool * pgxpool :=
  let (err, db') := roundTrip db in
  match err with
  | Some e => (Fail (fmt.Errorf_w "failed to check email existence: " e), db')
  | None => (Ok (existsb (fun u => String.eqb (Email u) email) (users db)), db')
  end.

(** CheckUsernameExists checks if username already exists *)
Definition pgCheckUsernameExists (db : pgxpool) (username : string)
  : result bool * pgxpool :=
  let (err, db') := roundTrip db in
  match err with
  | Some e => (Fail (fmt.Errorf_w "failed to check username existence: " e), db')
  | None => (Ok (existsb (fun u => String.eqb (Username u) username) (users db)), db')
  end.

End repository.

(** ** services/auth-service/internal/service *)

Module service.
Import models repository.

Section Service.
Context {R : Type} `{!UserRepository R} `{!Bcrypt}.
Context `{!JSON jwtlib.Header} `{!JSON jwt.Claims}.

(** AuthService handles authentication business logic *)
Record AuthService := {
  userRepo : R;
  jwtManager : jwt.JWTManager
}.

Definition withRepo (s : AuthService) (r : R) : AuthService :=
  {| userRepo := r; jwtManager := jwtManager s |}.

(** Login authenticates a user and returns tokens *)
Definition Login (s : AuthService) (nowA nowR : Time) (req : LoginRequest)
  : result (UserResponse * jwt.TokenPair) * AuthService :=
  let (found, r) := GetByEmail (userRepo s) (reqEmail req) in
  match found with
  | Fail _ => (Fail (fmt.Errorf "invalid credentials"), withRepo s r)
  | Ok user =>
      if negb (CheckPassword user (reqPassword req)) then
        (Fail (fmt.Errorf "invalid credentials"), withRepo s r)
      else
        match jwt.GenerateTokenPair (jwtManager s) nowA nowR
                (ID user) (Email user) (Username user) with
        | Fail err => (Fail (fmt.Errorf_w "failed to generate tokens: " err), withRepo s r)
        | Ok tokens => (Ok (ToResponse user, tokens), withRepo s r)
        end
  end.

(** RefreshToken generates new tokens using refresh token *)
Definition RefreshToken (s : AuthService) (now nowA nowR : Time) (refreshToken : string)
  : result jwt.TokenPair :=
  match jwt.RefreshAccessToken (jwtManager s) now nowA nowR refreshToken with
  | Fail err => Fail (fmt.Errorf_w "invalid refresh token: " err)
  | Ok tokens => Ok tokens
  end.

(** LinkTelegram links a Telegram account to a user *)
Definition LinkTelegram (s : AuthService) (userID : Z) (req : LinkTelegramRequest)
  : option error * AuthService :=
  let (existing, r) := GetByTelegramID (userRepo s) (reqTelegramID req) in
  let conflict :=
    match existing with
    | Ok existingUser => negb (ID existingUser =? userID)
    | Fail _ => false
    end in
  if conflict then
    (Some (fmt.Errorf "telegram account already linked to another user"), withRepo s r)
  else
    let (err, r') := repository.LinkTelegram r userID (reqTelegramID req) in
    match err with
    | Some e => (Some (fmt.Errorf_w "failed to link telegram: " e), withRepo s r')
    | None => (None, withRepo s r')
    end.

(** ValidateToken validates a JWT token and returns user claims *)
Definition ValidateToken (s : AuthService) (now : Time) (tokenString : string)
  : result jwt.Claims :=
  match jwt.ValidateToken (jwtManager s) now tokenString with
  | Fail err => Fail (fmt.Errorf_w "invalid token: " err)
  | Ok claims => Ok claims
  end.

End Service.

Section Account.
Context {R : Type} `{!UserRepository R} `{!UserRepositoryOps R} `{!BcryptGenerate}.
Context `{!JSON jwtlib.Header} `{!JSON jwt.Claims}.

(** Register creates a new user account *)
Definition Register (s : AuthService) (nowA nowR : Time) (req : CreateUserRequest)
  : result (UserResponse * jwt.TokenPair) * AuthService :=
  let (emailExists, r1) := CheckEmailExists (userRepo s) (createEmail req) in
  match emailExists with
  | Fail err => (Fail (fmt.Errorf_w "failed to check email: " err), withRepo s r1)
  | Ok true => (Fail (fmt.Errorf "email already exists"), withRepo s r1)
  | Ok false =>
      let (usernameExists, r2) := CheckUsernameExists r1 (createUsername req) in
      match usernameExists with
      | Fail err => (Fail (fmt.Errorf_w "failed to check username: " err), withRepo s r2)
      | Ok true => (Fail (fmt.Errorf "username already exists"), withRepo s r2)
      | Ok false =>
          let user :=
            {| ID := 0; Email := createEmail req; Username := createUsername req;
               Password := createPassword req; TelegramID := None;
               CreatedAt := zeroTime; UpdatedAt := zeroTime |} in
          match HashPassword user with
          | (Some err, _) =>
              (Fail (fmt.Errorf_w "failed to hash password: " err), withRepo s r2)
          | (None, hashed) =>
              let (created, r3) := Create r2 hashed in
              match created with
              | (Some err, _) =>
                  (Fail (fmt.Errorf_w "failed to create user: " err), withRepo s r3)
              | (None, user') =>
                  match jwt.GenerateTokenPair (jwtManager s) nowA nowR
                          (ID user') (Email user') (Username user') with
                  | Fail err =>
                      (Fail (fmt.Errorf_w "failed to generate tokens: " err), withRepo s r3)
                  | Ok tokens => (Ok (ToResponse user', tokens), withRepo s r3)
                  end
              end
          end
      end
  end.

(** GetProfile returns user profile information *)
Definition GetProfile (s : AuthService) (userID : Z) : result UserResponse * AuthService :=
  let (found, r) := GetByID (userRepo s) userID in
  match found with
  | Fail err => (Fail (fmt.Errorf_w "user not found: " err), withRepo s r)
  | Ok user => (Ok (ToResponse user), withRepo s r)
  end.

Definition withEmail (u : User) (email : string) : User :=
  {| ID := ID u; Email := email; Username := Username u; Password := Password u;
     TelegramID := TelegramID u; CreatedAt := CreatedAt u; UpdatedAt := UpdatedAt u |}.

Definition withUsername (u : User) (username : string) : User :=
  {| ID := ID u; Email := Email u; Username := username; Password := Password u;
     TelegramID := TelegramID u; CreatedAt := CreatedAt u; UpdatedAt := UpdatedAt u |}.

(** The email part of UpdateProfile: the existence check runs only for an
    email different from the current one. *)
Definition updateEmail (r : R) (user : User) (req : UpdateUserRequest) : result User * R :=
  match patchEmail req with
  | None => (Ok user, r)
  | Some email =>
      if negb (String.eqb email (Email user)) then
        let (emailExists, r') := CheckEmailExists r email in
        match emailExists with
        | Fail err => (Fail (fmt.Errorf_w "failed to check email: " err), r')
        | Ok true => (Fail (fmt.Errorf "email already exists"), r')
        | Ok false => (Ok (withEmail user email), r')
        end
      else (Ok (withEmail user email), r)
  end.

(** The username part of UpdateProfile. *)
Definition updateUsername (r : R) (user : User) (req : UpdateUserRequest)
  : result User * R :=
  match patchUsername req with
  | None => (Ok user, r)
  | Some username =>
      if negb (String.eqb username (Username user)) then
        let (usernameExists, r') := CheckUsernameExists r username in
        match usernameExists with
        | Fail err => (Fail (fmt.Errorf_w "failed to check username: " err), r')
        | Ok true => (Fail (fmt.Errorf "username already exists"), r')
        | Ok false => (Ok (withUsername user username), r')
        end
      else (Ok (withUsername user username), r)
  end.

(** UpdateProfile updates user profile information *)
Definition UpdateProfile (s : AuthService) (userID : Z) (req : UpdateUserRequest)
  : result UserResponse * AuthService :=
  let (found, r0) := GetByID (userRepo s) userID in
  match found with
  | Fail err => (Fail (fmt.Errorf_w "user not found: " err), withRepo s r0)
  | Ok user =>
      let (afterEmail, r1) := updateEmail r0 user req in
      match afterEmail with
      | Fail err => (Fail err, withRepo s r1)
      | Ok user1 =>
          let (afterUsername, r2) := updateUsername r1 user1 req in
          match afterUsername with
          | Fail err => (Fail err, withRepo s r2)
          | Ok user2 =>
              let (updated, r3) := Update r2 user2 in
              match updated with
              | (Some err, _) =>
                  (Fail (fmt.Errorf_w "failed to update user: " err), withRepo s r3)
              | (None, user3) => (Ok (ToResponse user3), withRepo s r3)
              end
          end
      end
  end.

(** GetUserByTelegramID retrieves a user by their Telegram ID *)
Definition GetUserByTelegramID (s : AuthService) (telegramID : Z)
  : result UserResponse * AuthService :=
  let (found, r) := GetByTelegramID (userRepo s) telegramID in
  match found with
  | Fail err => (Fail (fmt.Errorf_w "user not found: " err), withRepo s r)
  | Ok user => (Ok (ToResponse user), withRepo s r)
  end.

End Account.

End service.

(** ** shared/response, by the value each function hands to c.JSON *)

Module reply.

(** The values put in a gin.H. *)
Inductive hvalue :=
| hUser (u : models.UserResponse)
| hTokens (t : jwt.TokenPair)
| hString (s : string).

(** Response represents a standard API response; Data is a gin.H or nil. *)
Record Response := {
  Success : bool;
  Message : string;
  Data : option (gmap string hvalue);
  ErrorText : string
}.

(** What a handler writes: status code and body. *)
Inductive Reply :=
| JSONError (statusCode : Z) (body : gin.ErrorResponse)
| JSONSuccess (statusCode : Z) (body : Response).

Definition statusCode (r : Reply) : Z :=
  match r with
  | JSONError code _ | JSONSuccess code _ => code
  end.

(** SuccessResponse sends a successful response *)
Definition SuccessResponse (statusCode : Z) (message : string)
    (data : option (gmap string hvalue)) : Reply :=
  JSONSuccess statusCode
    {| Success := true; Message := message; Data := data; ErrorText := EmptyString |}.

(** ErrorResponseWithCode sends an error response with custom error code *)
Definition ErrorResponseWithCode (statusCode : Z) (error code : string) : Reply :=
  JSONError statusCode {| gin.Success := false; gin.ErrorText := error; gin.Code := code |}.

(** BadRequest sends a 400 Bad Request response *)
Definition BadRequest (error : string) : Reply :=
  ErrorResponseWithCode 400 error "BAD_REQUEST".

(** Unauthorized sends a 401 Unauthorized response *)
Definition Unauthorized (error : string) : Reply :=
  ErrorResponseWithCode 401 error "UNAUTHORIZED".

(** Forbidden sends a 403 Forbidden response *)
Definition Forbidden (error : string) : Reply :=
  ErrorResponseWithCode 403 error "FORBIDDEN".

(** NotFound sends a 404 Not Found response *)
Definition NotFound (error : string) : Reply :=
  ErrorResponseWithCode 404 error "NOT_FOUND".

(** Conflict sends a 409 Conflict response *)
Definition Conflict (error : string) : Reply :=
  ErrorResponseWithCode 409 error "CONFLICT".

(** InternalServerError sends a 500 Internal Server Error response *)
Definition InternalServerError (error : string) : Reply :=
  ErrorResponseWithCode 500 error "INTERNAL_SERVER_ERROR".

(** Created sends a 201 Created response *)
Definition Created (message : string) (data : option (gmap string hvalue)) : Reply :=
  SuccessResponse 201 message data.

(** OK sends a 200 OK response *)
Definition OK (message : string) (data : option (gmap string hvalue)) : Reply :=
  SuccessResponse 200 message data.

End reply.

(** ** services/auth-service/internal/handlers *)

(** Each handler writes one response on each of its paths: a handler is
    embedded as the function from what it reads (the outcome of binding the
    request, the gin context, the clock readings) to that response and the
    handler after the call. *)
Module handlers.
Import models reply.

Section Handlers.
Context {R : Type} `{!repository.UserRepository R} `{!repository.UserRepositoryOps R}.
Context `{!Bcrypt} `{!BcryptGenerate} `{!JSON jwtlib.Header} `{!JSON jwt.Claims}.

(** AuthHandler handles authentication-related HTTP requests *)
Record AuthHandler := {
  authService : service.AuthService (R := R)
}.

Definition NewAuthHandler (authService : service.AuthService) : AuthHandler :=
  {| authService := authService |}.

(** err.Error() is one of the two duplicate messages *)
Definition isDuplicate (err : error) : bool :=
  String.eqb (Error err) "email already exists"
  || String.eqb (Error err) "username already exists".

(** Register handles user registration; [bound] is what c.ShouldBindJSON
    gives: the request, or the binding or validation error. *)
Definition Register (h : AuthHandler) (nowA nowR : Time) (bound : result CreateUserRequest)
  : Reply * AuthHandler :=
  match bound with
  | Fail err => (BadRequest ("Invalid request data: " +:+ Error err), h)
  | Ok req =>
      let (outcome, s) := service.Register (authService h) nowA nowR req in
      match outcome with
      | Fail err =>
          if isDuplicate err then (Conflict (Error err), NewAuthHandler s)
          else (InternalServerError "Failed to register user", NewAuthHandler s)
      | Ok (user, tokens) =>
          (Created "User registered successfully"
             (Some (<["user" := hUser user]> (<["tokens" := hTokens tokens]> ∅))),
           NewAuthHandler s)
      end
  end.

(** Login handles user authentication *)
Definition Login (h : AuthHandler) (nowA nowR : Time) (bound : result LoginRequest)
  : Reply * AuthHandler :=
  match bound with
  | Fail err => (BadRequest ("Invalid request data: " +:+ Error err), h)
  | Ok req =>
      let (outcome, s) := service.Login (authService h) nowA nowR req in
      match outcome with
      | Fail err =>
          if String.eqb (Error err) "invalid credentials"
          then (Unauthorized "Invalid email or password", NewAuthHandler s)
          else (InternalServerError "Failed to login", NewAuthHandler s)
      | Ok (user, tokens) =>
          (OK "Login successful"
             (Some (<["user" := hUser user]> (<["tokens" := hTokens tokens]> ∅))),
           NewAuthHandler s)
      end
  end.

(** RefreshToken handles token refresh; [bound] is the bound refresh_token
    field. *)
Definition RefreshToken (h : AuthHandler) (now nowA nowR : Time) (bound : result string)
  : Reply :=
  match bound with
  | Fail err => BadRequest ("Invalid request data: " +:+ Error err)
  | Ok refreshToken =>
      match service.RefreshToken (authService h) now nowA nowR refreshToken with
      | Fail _ => Unauthorized "Invalid or expired refresh token"
      | Ok tokens =>
          OK "Token refreshed successfully" (Some (<["tokens" := hTokens tokens]> ∅))
      end
  end.

(** GetProfile handles getting user profile *)
Definition GetProfile (h : AuthHandler) (c : gin.Context) : Reply * AuthHandler :=
  let (userID, found) := middleware.GetUserIDFromContext c in
  if negb found then (Unauthorized "User not authenticated", h)
  else
    let (outcome, s) := service.GetProfile (authService h) userID in
    match outcome with
    | Fail _ => (NotFound "User not found", NewAuthHandler s)
    | Ok user =>
        (OK "Profile retrieved successfully" (Some (<["user" := hUser user]> ∅)),
         NewAuthHandler s)
    end.

(** UpdateProfile handles updating user profile *)
Definition UpdateProfile (h : AuthHandler) (c : gin.Context)
    (bound : result UpdateUserRequest) : Reply * AuthHandler :=
  let (userID, found) := middleware.GetUserIDFromContext c in
  if negb found then (Unauthorized "User not authenticated", h)
  else
    match bound with
    | Fail err => (BadRequest ("Invalid request data: " +:+ Error err), h)
    | Ok req =>
        let (outcome, s) := service.UpdateProfile (authService h) userID req in
        match outcome with
        | Fail err =>
            if isDuplicate err then (Conflict (Error err), NewAuthHandler s)
            else (InternalServerError "Failed to update profile", NewAuthHandler s)
        | Ok user =>
            (OK "Profile updated successfully" (Some (<["user" := hUser user]> ∅)),
             NewAuthHandler s)
        end
    end.

(** LinkTelegram handles linking Telegram account *)
Definition LinkTelegram (h : AuthHandler) (c : gin.Context)
    (bound : result LinkTelegramRequest) : Reply * AuthHandler :=
  let (userID, found) := middleware.GetUserIDFromContext c in
  if negb found then (Unauthorized "User not authenticated", h)
  else
    match bound with
    | Fail err => (BadRequest ("Invalid request data: " +:+ Error err), h)
    | Ok req =>
        let (err, s) := service.LinkTelegram (authService h) userID req in
        match err with
        | Some e =>
            if String.eqb (Error e) "telegram account already linked to another user"
            then (Conflict (Error e), NewAuthHandler s)
            else (InternalServerError "Failed to link Telegram account", NewAuthHandler s)
        | None => (OK "Telegram account linked successfully" None, NewAuthHandler s)
        end
    end.

(** HealthCheck handles health check requests *)
Definition HealthCheck (h : AuthHandler) : Reply :=
  OK "Auth service is healthy"
    (Some (<["service" := hString "auth-service"]>
             (<["status" := hString "healthy"]> (<["version" := hString "1.0.0"]> ∅)))).

(** GetUserByTelegramID handles getting user by Telegram ID (internal
    endpoint); [bound] is what c.ShouldBindUri gives. *)
Definition GetUserByTelegramID (h : AuthHandler) (bound : result Z) : Reply * AuthHandler :=
  match bound with
  | Fail _ => (BadRequest "Invalid Telegram ID", h)
  | Ok telegramID =>
      let (outcome, s) := service.GetUserByTelegramID (authService h) telegramID in
      match outcome with
      | Fail _ => (NotFound "User not found", NewAuthHandler s)
      | Ok user => (OK "User found" (Some (<["user" := hUser user]> ∅)), NewAuthHandler s)
      end
  end.

End Handlers.

End handlers.

(** ** services/auth-service/internal/config *)

(** time.ParseDuration, as an interface. *)
Class DurationParser := {
  ParseDuration : string -> result Duration
}.

Module config.

(** ServerConfig holds server configuration *)
Record ServerConfig := {
  ServerPort : string;
  Env : string
}.

(** DatabaseConfig holds database configuration *)
Record DatabaseConfig := {
  DBHost : string;
  DBPort : string;
  DBUser : string;
  DBPassword : string;
  DBName : string;
  SSLMode : string
}.

(** RedisConfig holds Redis configuration *)
Record RedisConfig := {
  RedisHost : string;
  RedisPort : string
}.

(** JWTConfig holds JWT configuration *)
Record JWTConfig := {
  Secret : string;
  AccessExpiration : Duration;
  RefreshExpiration : Duration
}.

(** Config holds all configuration for the auth service *)
Record Config := {
  Server : ServerConfig;
  Database : DatabaseConfig;
  Redis : RedisConfig;
  JWT : JWTConfig
}.

Definition defaultSecret : string := "your-super-secret-jwt-key-change-in-production".

(** os.Getenv on the process environment: the empty string when the
    variable is not set. *)
Definition Getenv (env : gmap string string) (key : string) : string :=
  default EmptyString (env !! key).

(** getEnv gets an environment variable with a fallback value *)
Definition getEnv (env : gmap string string) (key fallback : string) : string :=
  let value := Getenv env key in
  if negb (String.eqb value EmptyString) then value else fallback.

(** parseDuration parses a duration string with fallback *)
Definition parseDuration `{!DurationParser} (durationStr : string) : Duration :=
  match ParseDuration durationStr with
  | Fail _ =>
      if String.eqb durationStr "15m" then 15 * time.Minute
      else if String.eqb durationStr "7d" then 7 * 24 * time.Hour
      else 15 * time.Minute
  | Ok duration => duration
  end.

(** Validate validates the configuration *)
Definition Validate (c : Config) : option error :=
  if String.eqb (Secret (JWT c)) EmptyString then
    Some (fmt.Errorf "JWT_SECRET is required")
  else if String.eqb (Secret (JWT c)) defaultSecret
          && String.eqb (Env (Server c)) "production" then
    Some (fmt.Errorf "JWT_SECRET must be changed in production")
  else if String.eqb (DBHost (Database c)) EmptyString then
    Some (fmt.Errorf "DB_HOST is required")
  else if String.eqb (DBUser (Database c)) EmptyString then
    Some (fmt.Errorf "DB_USER is required")
  else if String.eqb (DBPassword (Database c)) EmptyString then
    Some (fmt.Errorf "DB_PASSWORD is required")
  else if String.eqb (DBName (Database c)) EmptyString then
    Some (fmt.Errorf "DB_NAME is required")
  else None.

(** Load loads configuration from environment variables; [env] is the
    process environment once godotenv.Load has run. *)
Definition Load `{!DurationParser} (env : gmap string string) : result Config :=
  let config :=
    {| Server :=
         {| ServerPort := getEnv env "PORT" "8081";
            Env := getEnv env "ENV" "development" |};
       Database :=
         {| DBHost := getEnv env "DB_HOST" "localhost";
            DBPort := getEnv env "DB_PORT" "5432";
            DBUser := getEnv env "DB_USER" "postgres";
            DBPassword := getEnv env "DB_PASSWORD" "password";
            DBName := getEnv env "DB_NAME" "rhythmify";
            SSLMode := getEnv env "DB_SSL_MODE" "disable" |};
       Redis :=
         {| RedisHost := getEnv env "REDIS_HOST" "localhost";
            RedisPort := getEnv env "REDIS_PORT" "6379" |};
       JWT :=
         {| Secret := getEnv env "JWT_SECRET" defaultSecret;
            AccessExpiration := parseDuration (getEnv env "JWT_ACCESS_EXPIRE" "15m");
            RefreshExpiration := parseDuration (getEnv env "JWT_REFRESH_EXPIRE" "7d") |} |} in
  match Validate config with
  | Some err => Fail (fmt.Errorf_w "invalid configuration: " err)
  | None => Ok config
  end.

(** GetDatabaseDSN returns the database connection string *)
Definition GetDatabaseDSN (c : Config) : string :=
  "host=" +:+ DBHost (Database c) +:+ " port=" +:+ DBPort (Database c)
  +:+ " user=" +:+ DBUser (Database c) +:+ " password=" +:+ DBPassword (Database c)
  +:+ " dbname=" +:+ DBName (Database c) +:+ " sslmode=" +:+ SSLMode (Database c).

(** GetRedisAddr returns the Redis address *)
Definition GetRedisAddr (c : Config) : string :=
  RedisHost (Redis c) +:+ ":" +:+ RedisPort (Redis c).

(** IsProduction returns true if running in production environment *)
Definition IsProduction (c : Config) : bool := String.eqb (Env (Server c)) "production".

(** IsDevelopment returns true if running in development environment *)
Definition IsDevelopment (c : Config) : bool := String.eqb (Env (Server c)) "development".

End config.

(** * Vocabulary of the properties *)

(** [free sep s]: the byte [sep] does not occur in [s]. *)
Definition free (sep : ascii) (s : string) : Prop := ~ In sep (list_ascii_of_string s).

Section Wire.
Import jwtlib.
Context {C : Type} `{!JSON Header} `{!JSON C}.

(** The compact serialization of a header, a claim set and signature
    bytes: three base64url segments joined by dots. *)
Definition wire (h : Header) (c : C) (sig : string) : string :=
  EncodeSegment (Marshal h) +:+ "." +:+ EncodeSegment (Marshal c) +:+ "."
  +:+ EncodeSegment sig.

(** The bytes the authentication code is computed over. *)
Definition signingInput (h : Header) (c : C) : string :=
  EncodeSegment (Marshal h) +:+ "." +:+ EncodeSegment (Marshal c).

(** The token value the parser has built from a serialized token. *)
Definition parsed (m : SigningMethod) (h : Header) (c : C) (sig : string) (valid : bool)
  : Token :=
  {| Raw := wire h c sig; Method := m; TokenHeader := h; TokenClaims := c;
     Signature := sig; Valid := valid |}.

(** The algorithm a token string declares: the alg entry of its decoded
    header, when the string has three segments and a readable header. *)
Definition declaredAlg (tokenString : string) : option string :=
  match strings.SplitByte tokenString "." with
  | [p0; _; _] =>
      match DecodeSegment p0 with
      | Ok headerBytes =>
          match Unmarshal headerBytes with
          | Ok header => alg header
          | Fail _ => None
          end
      | Fail _ => None
      end
  | _ => None
  end.

End Wire.

(** The names of the registered HMAC methods. *)
Definition hmacAlgs : list string := ["HS256"; "HS384"; "HS512"].

(** The sentinel errors under which the parser reports a failure. *)
Definition parseSentinels : list error :=
  [jwtlib.ErrTokenMalformed; jwtlib.ErrTokenUnverifiable; jwtlib.ErrTokenSignatureInvalid;
   jwtlib.ErrTokenInvalidClaims].

Section ManagerVocabulary.
Import jwtlib jwt.
Context `{!JSON Header} `{!JSON Claims}.

(** The header of every token the manager issues. *)
Definition hs256Header : Header := {| alg := Some "HS256"; typ := Some "JWT" |}.

(** The authentication code of a claim set under a secret. *)
Definition tag (secret : string) (c : Claims) : string :=
  hmac.Sum SHA256 secret (signingInput hs256Header c).

(** The verdict of the time validation on a claim set at [now]. *)
Definition inWindow (c : Claims) (now : Time) : bool :=
  match ExpiresAt (Registered c) with
  | Some exp => now <? NumericDate_Time exp
  | None => true
  end
  && match NotBefore (Registered c) with
     | Some nbf => NumericDate_Time nbf <=? now
     | None => true
     end.

(** A failure at one of the extraction and validation steps that the two
    gates share. *)
Definition gateFailure (j : JWTManager) (now : Time) (c : gin.Context) : Prop :=
  let authHeader := gin.Authorization c in
  let tokenString := strings.TrimPrefix authHeader "Bearer " in
  authHeader = EmptyString
  \/ strings.HasPrefix authHeader "Bearer " = false
  \/ tokenString = EmptyString
  \/ (exists err, ValidateToken j now tokenString = Fail err)
  \/ (exists claims, ValidateToken j now tokenString = Ok claims
                     /\ Type_ claims <> AccessToken).

(** A run of refreshes: each step, with its three clock readings, refreshes
    with the refresh token of the pair before it. *)
Fixpoint refreshChain (j : JWTManager) (pair : TokenPair)
    (steps : list (Time * Time * Time)) : result TokenPair :=
  match steps with
  | [] => Ok pair
  | (now, nowA, nowR) :: rest =>
      match RefreshAccessToken j now nowA nowR (pairRefreshToken pair) with
      | Fail err => Fail err
      | Ok pair' => refreshChain j pair' rest
      end
  end.

End ManagerVocabulary.

(** * An implementation of the interfaces

    To run the model on concrete requests, the JSON interface is implemented
    by a plain field codec (each field written in hexadecimal and closed by
    a semicolon) and the bcrypt interface by a tagged comparison. They only
    serve to evaluate examples: every general statement below quantifies
    over all implementations of the interfaces. *)

Module Sample.
Import jwtlib.

Fixpoint hexs (s : string) : string :=
  match s with
  | EmptyString => EmptyString
  | String a r =>
      String (hex_digit (Z_of_byte a / 16)) (String (hex_digit (Z_of_byte a mod 16)) (hexs r))
  end.

Definition unhex_digit (c : ascii) : option Z :=
  option_map Z.of_nat (base64.index_of c (list_ascii_of_string "0123456789abcdef")).

Fixpoint unhexs (s : string) : option string :=
  match s with
  | EmptyString => Some EmptyString
  | String x (String y r) =>
      match unhex_digit x, unhex_digit y, unhexs r with
      | Some h, Some l, Some t => Some (String (byte_of_Z (16 * h + l)) t)
      | _, _, _ => None
      end
  | String _ EmptyString => None
  end.

Fixpoint fields (l : list string) : string :=
  match l with
  | [] => EmptyString
  | f :: r => hexs f +:+ String ";" (fields r)
  end.

Fixpoint unfields_segments (segs : list string) : option (list string) :=
  match segs with
  | [] => None
  | x :: r =>
      match r with
      | [] => if String.eqb x EmptyString then Some [] else None
      | _ =>
          match unhexs x, unfields_segments r with
          | Some f, Some t => Some (f :: t)
          | _, _ => None
          end
      end
  end.

Definition unfields (s : string) : option (list string) :=
  unfields_segments (strings.SplitByte s ";").

Definition encZ (z : Z) : string := fmt.Sprintf_d z.
Definition decZ (s : string) : option Z := option_map Z.of_int (NilZero.int_of_string s).

Definition encOpt {A} (enc : A -> string) (o : option A) : string :=
  match o with
  | None => EmptyString
  | Some a => String "#" (enc a)
  end.
Definition decOpt {A} (dec : string -> option A) (s : string) : option (option A) :=
  match s with
  | EmptyString => Some None
  | String _ r => option_map Some (dec r)
  end.

Definition headerFields (h : Header) : list string :=
  [encOpt id (alg h); encOpt id (typ h)].

Definition headerOfFields (l : list string) : option Header :=
  match l with
  | [a; t] =>
      match decOpt Some a, decOpt Some t with
      | Some a', Some t' => Some {| alg := a'; typ := t' |}
      | _, _ => None
      end
  | _ => None
  end.

Definition claimsFields (c : jwt.Claims) : list string :=
  let r := jwt.Registered c in
  [encZ (jwt.UserID c); jwt.Email c; jwt.Username c; jwt.Type_ c;
   Issuer r; Subject r; encOpt encZ (ExpiresAt r); encOpt encZ (NotBefore r);
   encOpt encZ (IssuedAt r); ID r] ++ Audience r.

Definition claimsOfFields (l : list string) : option jwt.Claims :=
  match l with
  | uid :: email :: username :: type :: iss :: sub :: exp :: nbf :: iat :: jti :: aud =>
      match decZ uid, decOpt decZ exp, decOpt decZ nbf, decOpt decZ iat with
      | Some uid', Some exp', Some nbf', Some iat' =>
          Some {| jwt.UserID := uid'; jwt.Email := email; jwt.Username := username;
                  jwt.Type_ := type;
                  jwt.Registered :=
                    {| Issuer := iss; Subject := sub; Audience := aud;
                       ExpiresAt := exp'; NotBefore := nbf'; IssuedAt := iat';
                       ID := jti |} |}
      | _, _, _, _ => None
      end
  | _ => None
  end.

Definition SyntaxError := errors.New "invalid character".

Definition unmarshalWith {A} (ofFields : list string -> option A) (s : string) : result A :=
  match unfields s with
  | Some l =>
      match ofFields l with
      | Some a => Ok a
      | None => Fail SyntaxError
      end
  | None => Fail SyntaxError
  end.

#[export] Instance headerJSON : JSON Header := {|
  Marshal h := fields (headerFields h);
  Unmarshal := unmarshalWith headerOfFields
|}.

#[export] Instance claimsJSON : JSON jwt.Claims := {|
  Marshal c := fields (claimsFields c);
  Unmarshal := unmarshalWith claimsOfFields
|}.

Definition ErrMismatchedHashAndPassword :=
  errors.New "crypto/bcrypt: hashedPassword is not the hash of the given password".

#[export] Instance taggedBcrypt : Bcrypt := {|
  CompareHashAndPassword hash password :=
    if String.eqb hash ("$2a$" +:+ password) then None
    else Some ErrMismatchedHashAndPassword
|}.

#[export] Instance taggedBcryptGenerate : BcryptGenerate := {|
  GenerateFromPassword password := Ok ("$2a$" +:+ password)
|}.

(** A stand-in for the statements of Create and Update, whose outcome
    depends on the database schema (the id sequence, the constraints),
    which is not part of the source: ids count up from the largest id, and
    no constraint is enforced. The other operations are the ones of
    postgresUserRepository. *)
Definition sampleCreate (db : repository.pgxpool) (user : models.User)
  : (option error * models.User) * repository.pgxpool :=
  let (err, db') := repository.roundTrip db in
  match err with
  | Some e => ((Some (fmt.Errorf_w "failed to create user: " e), user), db')
  | None =>
      let id := 1 + fold_right Z.max 0 (map models.ID (repository.users db)) in
      let row :=
        {| models.ID := id; models.Email := models.Email user;
           models.Username := models.Username user; models.Password := models.Password user;
           models.TelegramID := models.TelegramID user;
           models.CreatedAt := repository.NOW db; models.UpdatedAt := repository.NOW db |} in
      ((None, row),
       {| repository.users := repository.users db ++ [row];
          repository.NOW := repository.NOW db';
          repository.faults := repository.faults db' |})
  end.

Definition sampleUpdate (db : repository.pgxpool) (user : models.User)
  : (option error * models.User) * repository.pgxpool :=
  let (err, db') := repository.roundTrip db in
  match err with
  | Some e => ((Some (fmt.Errorf_w "failed to update user: " e), user), db')
  | None =>
      if existsb (fun u => models.ID u =? models.ID user) (repository.users db) then
        let user' :=
          {| models.ID := models.ID user; models.Email := models.Email user;
             models.Username := models.Username user;
             models.Password := models.Password user;
             models.TelegramID := models.TelegramID user;
             models.CreatedAt := models.CreatedAt user;
             models.UpdatedAt := repository.NOW db |} in
        ((None, user'),
         {| repository.users :=
              map (fun u =>
                     if models.ID u =? models.ID user then
                       {| models.ID := models.ID u; models.Email := models.Email user;
                          models.Username := models.Username user;
                          models.Password := models.Password u;
                          models.TelegramID := models.TelegramID user;
                          models.CreatedAt := models.CreatedAt u;
                          models.UpdatedAt := repository.NOW db |}
                     else u) (repository.users db);
            repository.NOW := repository.NOW db';
            repository.faults := repository.faults db' |})
      else
        ((Some (fmt.Errorf ("user with id " +:+ fmt.Sprintf_d (models.ID user)
                            +:+ " not found")), user), db')
  end.

#[export] Instance sampleOps : repository.UserRepositoryOps repository.pgxpool := {|
  repository.Create := sampleCreate;
  repository.GetByID := repository.pgGetByID;
  repository.GetByUsername := repository.pgGetByUsername;
  repository.Update := sampleUpdate;
  repository.Delete := repository.pgDelete;
  repository.CheckEmailExists := repository.pgCheckEmailExists;
  repository.CheckUsernameExists := repository.pgCheckUsernameExists
|}.

End Sample.

(** * Sample data *)

Module Scenario.
Import Sample jwtlib jwt.

(** The secret of docker-compose.yml and the default lifetimes of the
    configuration (15 minutes and 7 days). *)
Definition secret : string := "your-super-secret-jwt-key-change-in-production".
Definition manager : JWTManager :=
  NewJWTManager secret (15 * time.Minute) (7 * 24 * time.Hour).

(** The same secret followed by one zero byte. *)
Definition paddedManager : JWTManager :=
  NewJWTManager (secret +:+ String "000" EmptyString) (15 * time.Minute) (7 * 24 * time.Hour).

Definition otherManager : JWTManager :=
  NewJWTManager "another-secret" (15 * time.Minute) (7 * 24 * time.Hour).

(** An access lifetime of one second. *)
Definition shortManager : JWTManager :=
  NewJWTManager secret time.Second (7 * 24 * time.Hour).

Definition t0 : Time := 1700000000123456789.

Definition accessClaims : Claims :=
  newClaims t0 7 "a@x.com" "alice" AccessToken (15 * time.Minute).
Definition refreshClaims : Claims :=
  newClaims t0 7 "a@x.com" "alice" RefreshToken (7 * 24 * time.Hour).

Definition tokenOf (r : result string) : string :=
  match r with
  | Ok t => t
  | Fail _ => EmptyString
  end.

Definition accessToken : string :=
  Eval vm_compute in tokenOf (signClaims manager accessClaims).
Definition refreshToken : string :=
  Eval vm_compute in tokenOf (signClaims manager refreshClaims).

(** The pair issued to alice at [t0]. *)
Definition pair : TokenPair :=
  {| pairAccessToken := accessToken; pairRefreshToken := refreshToken; ExpiresIn := 900 |}.

(** A token that declares the algorithm none and carries no signature. *)
Definition noneToken : string :=
  Eval vm_compute in wire {| alg := Some "none"; typ := Some "JWT" |} accessClaims EmptyString.

Definition request (authorization : string) : gin.Context :=
  {| gin.Authorization := authorization;
     gin.Keys := ∅;
     gin.aborted := false;
     gin.written := [] |}.

Definition alice : models.User :=
  {| models.ID := 7; models.Email := "a@x.com"; models.Username := "alice";
     models.Password := "$2a$secret1"; models.TelegramID := None;
     models.CreatedAt := t0; models.UpdatedAt := t0 |}.

Definition bob : models.User :=
  {| models.ID := 8; models.Email := "b@x.com"; models.Username := "bob";
     models.Password := "$2a$hunter22"; models.TelegramID := Some 555;
     models.CreatedAt := t0; models.UpdatedAt := t0 |}.

Definition db : repository.pgxpool :=
  {| repository.users := [alice; bob]; repository.NOW := t0; repository.faults := [] |}.

(** The same rows behind a connection that fails the next statement and
    serves the one after it. *)
Definition flakyDb : repository.pgxpool :=
  {| repository.users := [alice; bob];
     repository.NOW := t0;
     repository.faults := [Some (errors.New "connection refused"); None] |}.

Definition authService (pool : repository.pgxpool) : service.AuthService :=
  {| service.userRepo := pool; service.jwtManager := manager |}.

(** A token issued at [t0] for half a second: [t0] and its expiry fall in
    the same second. *)
Definition deadToken : string :=
  Eval vm_compute in
    tokenOf (generateToken manager t0 7 "a@x.com" "alice" AccessToken 500000000).

Definition pairOf (r : result TokenPair) : TokenPair :=
  match r with
  | Ok pair => pair
  | Fail _ => {| pairAccessToken := EmptyString; pairRefreshToken := EmptyString;
                 ExpiresIn := 0 |}
  end.

(** Two refreshes, one minute and one hour after [t0]. *)
Definition refreshSteps : list (Time * Time * Time) :=
  [(t0 + time.Minute, t0 + time.Minute, t0 + time.Minute);
   (t0 + time.Hour, t0 + time.Hour, t0 + time.Hour)].

Definition refreshedPair : TokenPair :=
  Eval vm_compute in
    pairOf (GenerateTokenPair manager (t0 + time.Hour) (t0 + time.Hour) 7 "a@x.com" "alice").

(** A registration, and the account and the pair it gives on [db]. *)
Definition carolRequest : models.CreateUserRequest :=
  {| models.createEmail := "c@x.com"; models.createUsername := "carol";
     models.createPassword := "pw123456" |}.

Definition carol : models.User :=
  {| models.ID := 9; models.Email := "c@x.com"; models.Username := "carol";
     models.Password := "$2a$pw123456"; models.TelegramID := None;
     models.CreatedAt := t0; models.UpdatedAt := t0 |}.

Definition carolPair : TokenPair :=
  Eval vm_compute in pairOf (GenerateTokenPair manager t0 t0 9 "c@x.com" "carol").

(** The context of a request that has passed the gate with alice's access
    token. *)
Definition aliceContext : gin.Context :=
  middleware.storeUser accessClaims (request ("Bearer " +:+ accessToken)).

Definition authHandler (pool : repository.pgxpool) : handlers.AuthHandler :=
  handlers.NewAuthHandler (authService pool).

End Scenario.

(** * Properties *)

(** ** Known answers for the digest and authentication code models *)

Example sha256_abc :
  hex (SHA2.sha256 "abc")
  = "ba7816bf8f01cfea414140de5dae2223b00361a396177a9cb410ff61f20015ad".
Proof. vm_compute. reflexivity. Qed.

Example sha384_abc :
  hex (SHA2.sha384 "abc")
  = "cb00753f45a35e8bb5a03d699ac65007272c32ab0eded1631a8b605a43ff5bed8086072ba1e7cc2358baeca134c825a7".
Proof. vm_compute. reflexivity. Qed.

Example sha512_abc :
  hex (SHA2.sha512 "abc")
  = "ddaf35a193617abacc417349ae20413112e6fa4e89a97ea20a9eeee64b55d39a2192992a274fc1a836ba3c23a3feebbd454d4423643ce80e2a9ac94fa54ca49f".
Proof. vm_compute. reflexivity. Qed.

(** RFC 4231, test case 2. *)
Example hmac_sha256_rfc4231 :
  hex (hmac.Sum SHA256 "Jefe" "what do ya want for nothing?")
  = "5bdcc146bf60754e6a042426089575c75a003f089d2739839dec58b964ec3843".
Proof. vm_compute. reflexivity. Qed.

Example hmac_sha512_rfc4231 :
  hex (hmac.Sum SHA512 "Jefe" "what do ya want for nothing?")
  = "164b7a7bfcf819e2e395fbe73b56e0a387bd64222e831fd610270cd7ea2505549758bf75c05a994a6d034f65f8f0e6fdcaeab1a34d4a6b4b636e070a38bce737".
Proof. vm_compute. reflexivity. Qed.

(** An HS256 signature in its base64url form. *)
Example hs256_signature :
  base64.EncodeToString
    (hmac.Sum SHA256 "your-256-bit-secret"
       "eyJhbGciOiJIUzI1NiIsInR5cCI6IkpXVCJ9.eyJzdWIiOiIxMjM0NTY3ODkwIiwibmFtZSI6IkpvaG4gRG9lIiwiaWF0IjoxNTE2MjM5MDIyfQ")
  = "SflKxwRJSMeKKF2QT4fwpMeJf36POk6yJV_adQssw5c".
Proof. vm_compute. reflexivity. Qed.

(** The key of an authentication code is filled up with zero bytes: a
    secret and the same secret followed by zero bytes give one key block. *)
Lemma keyBlock_zero_padded :
  hmac.keyBlock SHA256 (Scenario.secret +:+ String "000" EmptyString)
  = hmac.keyBlock SHA256 Scenario.secret.
Proof. vm_compute. reflexivity. Qed.

(** So do a secret longer than the block and its digest. *)
Example keyBlock_long_secret :
  let long := "a-secret-of-more-than-sixty-four-bytes-is-replaced-by-its-sha256-digest" in
  (64 <? String.length long)%nat = true
  /\ hmac.keyBlock SHA256 (SHA2.sha256 long) = hmac.keyBlock SHA256 long.
Proof. vm_compute. split; reflexivity. Qed.

(** ** Strings *)

Lemma append_nil_l (s : string) : EmptyString +:+ s = s.
Proof. reflexivity. Qed.

Lemma append_cons (c : ascii) (a b : string) : String c a +:+ b = String c (a +:+ b).
Proof. reflexivity. Qed.

Ltac appsimpl := rewrite ?append_cons, ?append_nil_l.

Lemma append_assoc (a b c : string) : (a +:+ b) +:+ c = a +:+ (b +:+ c).
Proof. induction a as [|x a IH]; appsimpl; [reflexivity | now rewrite IH]. Qed.

Lemma free_cons sep c s : free sep (String c s) <-> c <> sep /\ free sep s.
Proof. unfold free; simpl. intuition congruence. Qed.

Lemma SplitByte_free sep s : free sep s -> strings.SplitByte s sep = [s].
Proof.
  induction s as [|c s IH]; intros Hf; simpl; [reflexivity|].
  apply free_cons in Hf as [Hc Hs].
  destruct (Ascii.eqb_spec c sep) as [->|_]; [congruence|].
  now rewrite (IH Hs).
Qed.

Lemma SplitByte_app sep a b :
  free sep a ->
  strings.SplitByte (a +:+ String sep b) sep = a :: strings.SplitByte b sep.
Proof.
  induction a as [|c a IH]; intros Hf; appsimpl; simpl.
  - now rewrite Ascii.eqb_refl.
  - apply free_cons in Hf as [Hc Hs].
    destruct (Ascii.eqb_spec c sep) as [->|_]; [congruence|].
    now rewrite (IH Hs).
Qed.

Lemma HasPrefix_app (p s : string) : strings.HasPrefix (p +:+ s) p = true.
Proof.
  induction p as [|c p IH]; appsimpl; simpl; [now destruct s|]. now rewrite Ascii.eqb_refl.
Qed.

Lemma substring_all (s : string) : String.substring 0 (String.length s) s = s.
Proof. induction s as [|c s IH]; simpl; [reflexivity | now rewrite IH]. Qed.

Lemma TrimPrefix_app (p s : string) : strings.TrimPrefix (p +:+ s) p = s.
Proof.
  unfold strings.TrimPrefix. rewrite HasPrefix_app.
  induction p as [|c p IH]; appsimpl; simpl.
  - rewrite Nat.sub_0_r. apply substring_all.
  - exact IH.
Qed.

(** ** base64url *)

Lemma dec_enc (s : base64.sextet) : base64.dec (base64.enc s) = Some s.
Proof. destruct s as [[[[[[] []] []] []] []] []]; reflexivity. Qed.

Lemma enc_not_newline (s : base64.sextet) : base64.isNewline (base64.enc s) = false.
Proof. destruct s as [[[[[[] []] []] []] []] []]; reflexivity. Qed.

Lemma enc_not_dot (s : base64.sextet) : base64.enc s <> "."%char.
Proof. destruct s as [[[[[[] []] []] []] []] []]; discriminate. Qed.

(** Lists are consumed three bytes at a time. *)
Lemma list_ind3 {A} (P : list A -> Prop) :
  P [] -> (forall a, P [a]) -> (forall a b, P [a; b]) ->
  (forall a b c l, P l -> P (a :: b :: c :: l)) ->
  forall l, P l.
Proof.
  intros H0 H1 H2 H3.
  assert (H : forall l, P l /\ (forall a, P (a :: l)) /\ (forall a b, P (a :: b :: l))).
  { induction l as [|x l (IHa & IHb & IHc)]; [now auto|].
    repeat split; auto. }
  intros l. apply H.
Qed.

Lemma decode_encode (l : list ascii) : base64.decode (base64.encode l) = Some l.
Proof.
  induction l as [| a | a b | a b c l IH] using list_ind3.
  - reflexivity.
  - destruct a. cbn [base64.encode base64.decode]. now rewrite !dec_enc.
  - destruct a, b. cbn [base64.encode base64.decode]. now rewrite !dec_enc.
  - destruct a, b, c. cbn [base64.encode]. cbn [base64.decode].
    now rewrite !dec_enc, IH.
Qed.

(** Every output character is taken from the alphabet. *)
Lemma encode_alphabet (l : list ascii) :
  Forall (fun c => exists s, c = base64.enc s) (base64.encode l).
Proof.
  induction l as [| a | a b | a b c l IH] using list_ind3.
  - constructor.
  - destruct a. cbn [base64.encode]. repeat constructor; eauto.
  - destruct a, b. cbn [base64.encode]. repeat constructor; eauto.
  - destruct a, b, c. cbn [base64.encode]. repeat (constructor; eauto).
Qed.

Lemma DecodeString_EncodeToString (s : string) :
  base64.DecodeString (base64.EncodeToString s) = Some s.
Proof.
  unfold base64.DecodeString, base64.EncodeToString.
  rewrite list_ascii_of_string_of_list_ascii.
  assert (F : List.filter (fun c => negb (base64.isNewline c))
                (base64.encode (list_ascii_of_string s))
              = base64.encode (list_ascii_of_string s)).
  { pose proof (encode_alphabet (list_ascii_of_string s)) as A.
    induction A as [|c l [x ->] _ IH]; [reflexivity|].
    cbn [List.filter]. rewrite enc_not_newline. cbn. now rewrite IH. }
  rewrite F, decode_encode. cbn. now rewrite string_of_list_ascii_of_string.
Qed.

Lemma EncodeToString_free_dot (s : string) : free "." (base64.EncodeToString s).
Proof.
  unfold free, base64.EncodeToString. rewrite list_ascii_of_string_of_list_ascii.
  pose proof (encode_alphabet (list_ascii_of_string s)) as A.
  intros Hin. rewrite Forall_forall in A. destruct (A _ Hin) as [x Hx].
  symmetry in Hx. now apply enc_not_dot in Hx.
Qed.

Lemma DecodeSegment_EncodeSegment (s : string) :
  jwtlib.DecodeSegment (jwtlib.EncodeSegment s) = Ok s.
Proof.
  unfold jwtlib.DecodeSegment, jwtlib.EncodeSegment.
  now rewrite DecodeString_EncodeToString.
Qed.

(** ** The sample codec satisfies the JSON contract *)

Lemma unhexs_hexs (s : string) : Sample.unhexs (Sample.hexs s) = Some s.
Proof.
  induction s as [|a s IH]; [reflexivity|].
  cbn [Sample.hexs Sample.unhexs]. rewrite IH.
  destruct a as [[] [] [] [] [] [] [] []]; reflexivity.
Qed.

Lemma hexs_free (s : string) : free ";" (Sample.hexs s).
Proof.
  induction s as [|a s IH]; [intros []|].
  cbn [Sample.hexs]. apply free_cons; split; [|apply free_cons; split; [|exact IH]];
    destruct a as [[] [] [] [] [] [] [] []]; discriminate.
Qed.

Lemma unfields_fields (l : list string) : Sample.unfields (Sample.fields l) = Some l.
Proof.
  unfold Sample.unfields. induction l as [|f l IH]; [reflexivity|].
  cbn [Sample.fields]. rewrite SplitByte_app by apply hexs_free.
  destruct (strings.SplitByte (Sample.fields l) ";") as [|x r]; [discriminate IH|].
  cbn [Sample.unfields_segments] in *. now rewrite unhexs_hexs, IH.
Qed.

Lemma decZ_encZ (z : Z) : Sample.decZ (Sample.encZ z) = Some z.
Proof.
  unfold Sample.decZ, Sample.encZ, fmt.Sprintf_d.
  rewrite NilZero.isi.
  - cbn. now rewrite DecimalZ.of_to.
  - destruct z; cbn; try discriminate.
    intros [= E]. now apply DecimalPos.Unsigned.to_uint_nonnil in E.
  - destruct z; cbn; try discriminate.
    intros [= E]. now apply DecimalPos.Unsigned.to_uint_nonnil in E.
Qed.

Lemma decOpt_encOpt {A} (enc : A -> string) (dec : string -> option A) (o : option A) :
  (forall a, dec (enc a) = Some a) -> Sample.decOpt dec (Sample.encOpt enc o) = Some o.
Proof. intros E. destruct o as [a|]; cbn; [now rewrite E | reflexivity]. Qed.

Lemma headerJSON_lawful : @LawfulJSON jwtlib.Header Sample.headerJSON.
Proof.
  intros h.
  change (Sample.unmarshalWith Sample.headerOfFields (Sample.fields (Sample.headerFields h))
          = Ok h).
  unfold Sample.unmarshalWith. rewrite unfields_fields.
  destruct h as [a t]. unfold Sample.headerOfFields, Sample.headerFields.
  cbn [jwtlib.alg jwtlib.typ].
  now rewrite !decOpt_encOpt by reflexivity.
Qed.

Lemma claimsJSON_lawful : @LawfulJSON jwt.Claims Sample.claimsJSON.
Proof.
  intros c.
  change (Sample.unmarshalWith Sample.claimsOfFields (Sample.fields (Sample.claimsFields c))
          = Ok c).
  unfold Sample.unmarshalWith. rewrite unfields_fields.
  destruct c as [uid email username type [iss sub aud exp nbf iat jti]].
  unfold Sample.claimsOfFields, Sample.claimsFields.
  cbn [jwt.Registered jwt.UserID jwt.Email jwt.Username jwt.Type_ jwtlib.Issuer
       jwtlib.Subject jwtlib.Audience jwtlib.ExpiresAt jwtlib.NotBefore jwtlib.IssuedAt
       jwtlib.ID app].
  now rewrite decZ_encZ, !decOpt_encOpt by apply decZ_encZ.
Qed.

(** ** Tokens on the wire *)

#[global] Arguments hmac.Sum : simpl never.
#[global] Arguments jwtlib.EncodeSegment : simpl never.

Section WireFacts.
Import jwtlib.
Context {C : Type} (registered : C -> RegisteredClaims).
Context `{!JSON Header} `{!JSON C} `{!LawfulJSON Header} `{!LawfulJSON C}.

Lemma SplitByte_wire h (c : C) sig :
  strings.SplitByte (wire h c sig) "."
  = [EncodeSegment (Marshal h); EncodeSegment (Marshal c); EncodeSegment sig].
Proof.
  unfold wire. appsimpl.
  rewrite SplitByte_app by apply EncodeToString_free_dot.
  rewrite SplitByte_app by apply EncodeToString_free_dot.
  rewrite SplitByte_free by apply EncodeToString_free_dot.
  reflexivity.
Qed.

Lemma SignedString_wire (m : SigningMethod) (c : C) (key : string) :
  SignedString (NewWithClaims m c) key
  = match Sign m (signingInput {| alg := Some (Alg m); typ := Some "JWT" |} c) key with
    | Ok sig => Ok (wire {| alg := Some (Alg m); typ := Some "JWT" |} c sig)
    | Fail e => Fail e
    end.
Proof.
  unfold SignedString, SigningString, NewWithClaims, wire, signingInput. cbn.
  destruct (Sign m _ key); [|reflexivity].
  now rewrite !append_assoc.
Qed.

Lemma ParseUnverified_wire h (c : C) sig a m :
  alg h = Some a -> GetSigningMethod a = Some m ->
  ParseUnverified (wire h c sig)
  = Ok ({| Raw := wire h c sig; Method := m; TokenHeader := h; TokenClaims := c;
           Signature := EmptyString; Valid := false |},
        [EncodeSegment (Marshal h); EncodeSegment (Marshal c); EncodeSegment sig]).
Proof.
  intros Ha Hm. unfold ParseUnverified.
  rewrite SplitByte_wire, !DecodeSegment_EncodeSegment, !Unmarshal_Marshal, Ha, Hm.
  reflexivity.
Qed.

(** The parser on a serialized token, step by step. *)
Lemma ParseWithClaims_wire (now : Time) h (c : C) sig (keyFunc : Keyfunc) :
  ParseWithClaims registered now (wire h c sig) keyFunc
  = match alg h with
    | None => Fail (newError "signing method (alg) is unspecified" ErrTokenUnverifiable [])
    | Some a =>
        match GetSigningMethod a with
        | None => Fail (newError "signing method (alg) is unavailable" ErrTokenUnverifiable [])
        | Some m =>
            match keyFunc (parsed m h c sig false) with
            | Fail e => Fail (newError "error while executing keyfunc" ErrTokenUnverifiable [e])
            | Ok key =>
                match Verify m (signingInput h c) sig key with
                | Some e => Fail (newError EmptyString ErrTokenSignatureInvalid [e])
                | None =>
                    match Validate registered now c with
                    | Some e => Fail (newError EmptyString ErrTokenInvalidClaims [e])
                    | None => Ok (parsed m h c sig true)
                    end
                end
            end
        end
    end.
Proof.
  unfold ParseWithClaims, ParseUnverified.
  rewrite SplitByte_wire.
  rewrite !DecodeSegment_EncodeSegment, !Unmarshal_Marshal.
  destruct (alg h) as [a|]; [|reflexivity].
  destruct (GetSigningMethod a) as [m|]; [|reflexivity].
  cbn [nth firstn strings.Join].
  rewrite DecodeSegment_EncodeSegment. cbn.
  reflexivity.
Qed.

End WireFacts.

(** ** The parser on arbitrary strings *)

Section ParserFacts.
Import jwtlib jwt.
Context `{!JSON Header} `{!JSON Claims}.

Lemma GetSigningMethod_HMAC a n h :
  GetSigningMethod a = Some (SigningMethodHMAC n h) -> In a hmacAlgs.
Proof.
  unfold GetSigningMethod, signingMethods. cbn [find Alg].
  repeat match goal with
    | |- context [String.eqb ?x a] => destruct (String.eqb_spec x a) as [?|_]
    end; intros E; try discriminate E; subst; cbn; tauto.
Qed.

Lemma newError_sentinel message err more :
  hd_error (Unwrap (newError message err more)) = Some err.
Proof. reflexivity. Qed.

Lemma ParseWithClaims_Fail (now : Time) tokenString (keyFunc : Keyfunc) err :
  ParseWithClaims Registered now tokenString keyFunc = Fail err ->
  exists sentinel, In sentinel parseSentinels /\ hd_error (Unwrap err) = Some sentinel.
Proof.
  unfold ParseWithClaims, ParseUnverified. intros E.
  repeat case_match; simplify_eq;
    (eexists; split; [|apply newError_sentinel]); cbn; tauto.
Qed.

Lemma ParseWithClaims_Ok (now : Time) tokenString (keyFunc : Keyfunc) token :
  ParseWithClaims Registered now tokenString keyFunc = Ok token ->
  Valid token = true
  /\ exists a key,
       declaredAlg tokenString = Some a
       /\ GetSigningMethod a = Some (Method token)
       /\ keyFunc {| Raw := tokenString; Method := Method token;
                     TokenHeader := TokenHeader token; TokenClaims := TokenClaims token;
                     Signature := Signature token; Valid := false |} = Ok key.
Proof.
  unfold ParseWithClaims, ParseUnverified, declaredAlg. intros E.
  repeat case_match; simplify_eq. cbn. split; [reflexivity|]. eauto.
Qed.

Lemma ValidateToken_Fail (j : JWTManager) (now : Time) tokenString err :
  ValidateToken j now tokenString = Fail err ->
  exists cause sentinel,
    err = fmt.Errorf_w "failed to parse token: " cause
    /\ In sentinel parseSentinels
    /\ hd_error (Unwrap cause) = Some sentinel.
Proof.
  unfold ValidateToken.
  destruct (ParseWithClaims Registered now tokenString (keyfunc j)) as [token|cause] eqn:E.
  - apply ParseWithClaims_Ok in E as [-> _]. discriminate.
  - intros [= <-]. apply ParseWithClaims_Fail in E as (sentinel & Hin & Hs). eauto.
Qed.

Lemma ValidateToken_Ok_alg (j : JWTManager) (now : Time) tokenString claims :
  ValidateToken j now tokenString = Ok claims ->
  exists a, declaredAlg tokenString = Some a /\ In a hmacAlgs.
Proof.
  unfold ValidateToken.
  destruct (ParseWithClaims Registered now tokenString (keyfunc j)) as [token|cause] eqn:E;
    [|discriminate].
  intros _. apply ParseWithClaims_Ok in E as (_ & a & key & Ha & Hm & Hk).
  exists a. split; [exact Ha|].
  unfold keyfunc in Hk. cbn [Method] in Hk.
  destruct (Method token) eqn:Em; try discriminate.
  eapply GetSigningMethod_HMAC; eauto.
Qed.

Lemma ValidateToken_empty (j : JWTManager) (now : Time) :
  exists err, ValidateToken j now EmptyString = Fail err.
Proof. eexists. reflexivity. Qed.

Lemma ValidateToken_Ok_nonempty (j : JWTManager) (now : Time) tokenString claims :
  ValidateToken j now tokenString = Ok claims -> String.eqb tokenString EmptyString = false.
Proof.
  intros Hv. destruct (String.eqb_spec tokenString EmptyString) as [->|]; [|reflexivity].
  destruct (ValidateToken_empty j now) as [err E]. congruence.
Qed.

End ParserFacts.

(** ** The token manager *)

Section ManagerFacts.
Import jwtlib jwt.
Context `{!JSON Header} `{!JSON Claims} `{!LawfulJSON Header} `{!LawfulJSON Claims}.

Lemma signClaims_wire (j : JWTManager) (c : Claims) :
  signClaims j c = Ok (wire hs256Header c (tag (secretKey j) c)).
Proof. unfold signClaims. rewrite SignedString_wire. reflexivity. Qed.

Lemma GenerateTokenPair_Ok (j : JWTManager) (nowA nowR : Time) (userID : Z)
    (email username : string) :
  GenerateTokenPair j nowA nowR userID email username
  = Ok {| pairAccessToken :=
            wire hs256Header
              (newClaims nowA userID email username AccessToken (accessTokenDuration j))
              (tag (secretKey j)
                 (newClaims nowA userID email username AccessToken (accessTokenDuration j)));
          pairRefreshToken :=
            wire hs256Header
              (newClaims nowR userID email username RefreshToken (refreshTokenDuration j))
              (tag (secretKey j)
                 (newClaims nowR userID email username RefreshToken
                    (refreshTokenDuration j)));
          ExpiresIn := time.Seconds_int64 (accessTokenDuration j) |}.
Proof. unfold GenerateTokenPair, generateToken. now rewrite !signClaims_wire. Qed.

Lemma NumericDate_floor (t : Time) :
  NumericDate_Time (NewNumericDate t) <= t
  < NumericDate_Time (NewNumericDate t) + time.Second.
Proof.
  unfold NumericDate_Time, NewNumericDate, time.Second.
  pose proof (Z.mul_div_le t 1000000000).
  pose proof (Z.mul_succ_div_gt t 1000000000). lia.
Qed.

Lemma Validate_inWindow (c : Claims) (now : Time) :
  inWindow c now = true <-> Validate Registered now c = None.
Proof.
  unfold inWindow, Validate, verifyExpiresAt, verifyNotBefore, time.Before.
  destruct (ExpiresAt (Registered c)) as [e|], (NotBefore (Registered c)) as [n|]; cbn;
    repeat match goal with
      | |- context [?a <? ?b] => destruct (Z.ltb_spec a b); cbn
      | |- context [?a <=? ?b] => destruct (Z.leb_spec a b); cbn
      end; split; intros; try reflexivity; try discriminate; lia.
Qed.

Lemma Validate_outside (c : Claims) (now : Time) :
  inWindow c now = false -> exists cause, Validate Registered now c = Some cause.
Proof.
  intros Hw. destruct (Validate Registered now c) as [e|] eqn:E; [eauto|].
  apply Validate_inWindow in E. congruence.
Qed.

(** ValidateToken on a serialized token. *)
Lemma ValidateToken_wire (j : JWTManager) (now : Time) h c sig :
  ValidateToken j now (wire h c sig)
  = match alg h with
    | None =>
        Fail (fmt.Errorf_w "failed to parse token: "
                (newError "signing method (alg) is unspecified" ErrTokenUnverifiable []))
    | Some a =>
        match GetSigningMethod a with
        | None =>
            Fail (fmt.Errorf_w "failed to parse token: "
                    (newError "signing method (alg) is unavailable" ErrTokenUnverifiable []))
        | Some (SigningMethodHMAC n hash) =>
            if hmac.Equal sig (hmac.Sum hash (secretKey j) (signingInput h c)) then
              match Validate Registered now c with
              | Some e =>
                  Fail (fmt.Errorf_w "failed to parse token: "
                          (newError EmptyString ErrTokenInvalidClaims [e]))
              | None => Ok c
              end
            else
              Fail (fmt.Errorf_w "failed to parse token: "
                      (newError EmptyString ErrTokenSignatureInvalid [ErrSignatureInvalid]))
        | Some _ =>
            Fail (fmt.Errorf_w "failed to parse token: "
                    (newError "error while executing keyfunc" ErrTokenUnverifiable
                       [fmt.Errorf ("unexpected signing method: " +:+ a)]))
        end
    end.
Proof.
  unfold ValidateToken. rewrite ParseWithClaims_wire by exact _.
  destruct (alg h) as [a|] eqn:Ea; [|reflexivity].
  destruct (GetSigningMethod a) as [m|]; [|reflexivity].
  destruct m; cbn [keyfunc parsed Method TokenHeader]; rewrite ?Ea; try reflexivity.
  cbn [Verify].
  destruct (hmac.Equal sig _); [|reflexivity].
  destruct (Validate Registered now c); reflexivity.
Qed.

(** A token signed by [j1], validated by [j2]. *)
Lemma ValidateToken_signed (j1 j2 : JWTManager) (now : Time) (c : Claims) tokenString :
  signClaims j1 c = Ok tokenString ->
  ValidateToken j2 now tokenString
  = if String.eqb (tag (secretKey j1) c) (tag (secretKey j2) c) then
      match Validate Registered now c with
      | Some e =>
          Fail (fmt.Errorf_w "failed to parse token: "
                  (newError EmptyString ErrTokenInvalidClaims [e]))
      | None => Ok c
      end
    else
      Fail (fmt.Errorf_w "failed to parse token: "
              (newError EmptyString ErrTokenSignatureInvalid [ErrSignatureInvalid])).
Proof.
  rewrite signClaims_wire. intros [= <-].
  rewrite ValidateToken_wire. reflexivity.
Qed.

(** The key function admits the whole HMAC family: a token that declares
    HS384 and carries the HMAC-SHA384 code of the secret is accepted. *)
Lemma ValidateToken_accepts_HS384 (j : JWTManager) (now : Time) (c : Claims) :
  inWindow c now = true ->
  let h := {| alg := Some "HS384"; typ := Some "JWT" |} in
  ValidateToken j now (wire h c (hmac.Sum SHA384 (secretKey j) (signingInput h c))) = Ok c.
Proof.
  intros Hw h. rewrite ValidateToken_wire. cbn [alg h].
  change (GetSigningMethod "HS384") with (Some SigningMethodHS384).
  unfold SigningMethodHS384, hmac.Equal. rewrite String.eqb_refl.
  apply Validate_inWindow in Hw. now rewrite Hw.
Qed.

End ManagerFacts.

(** ** The authentication gate *)

Section GateFacts.
Import jwtlib jwt gin middleware.
Context `{!JSON Header} `{!JSON Claims}.

Lemma bearer_nonempty (t : string) : String.eqb ("Bearer " +:+ t) EmptyString = false.
Proof. reflexivity. Qed.

(** The strict gate on a request that carries a bearer token. *)
Lemma JWTMiddleware_bearer (j : JWTManager) (now : Time) next c tokenString :
  Authorization c = "Bearer " +:+ tokenString ->
  String.eqb tokenString EmptyString = false ->
  JWTMiddleware j now next c
  = match ValidateToken j now tokenString with
    | Fail _ => Abort (response.Unauthorized c "Invalid or expired token")
    | Ok claims =>
        if negb (String.eqb (Type_ claims) AccessToken) then
          Abort (response.Unauthorized c "Invalid token type")
        else next (storeUser claims c)
    end.
Proof.
  intros Hh Ht. unfold JWTMiddleware, GetHeader_Authorization. rewrite Hh.
  rewrite bearer_nonempty, HasPrefix_app, TrimPrefix_app, Ht. reflexivity.
Qed.

(** AuthService.ValidateToken is ValidateToken with the error wrapped:
    it makes no check of the token type. *)
Lemma service_ValidateToken_any_type {R : Type} (s : service.AuthService (R := R))
    (now : Time) tokenString claims :
  ValidateToken (service.jwtManager s) now tokenString = Ok claims ->
  service.ValidateToken s now tokenString = Ok claims.
Proof. unfold service.ValidateToken. now intros ->. Qed.

End GateFacts.

(** ** The repository *)

(** A statement of pgLinkTelegram that ran without error has set the
    Telegram ID of the rows with the given id, and of no other row. *)
Lemma pgLinkTelegram_persists (pool : repository.pgxpool) (userID telegramID : Z) pool' :
  repository.pgLinkTelegram pool userID telegramID = (None, pool') ->
  exists u, In u (repository.users pool') /\ models.ID u = userID
            /\ models.TelegramID u = Some telegramID.
Proof.
  unfold repository.pgLinkTelegram.
  destruct (repository.roundTrip pool) as [[e|] p]; [discriminate|].
  destruct (length _ =? 0)%nat eqn:El; [discriminate|].
  intros [= <-]. cbn [repository.users].
  apply Nat.eqb_neq in El.
  destruct (List.filter (fun u => models.ID u =? userID) (repository.users pool))
    as [|u l] eqn:Ef; [contradiction|].
  assert (Hu : In u (List.filter (fun u => models.ID u =? userID) (repository.users pool)))
    by (rewrite Ef; now left).
  apply filter_In in Hu as [Hin Hid].
  eexists. split; [apply in_map_iff; exists u; split; [reflexivity | exact Hin]|].
  rewrite Hid. cbn. split; [now apply Z.eqb_eq | reflexivity].
Qed.

(** * The claims *)

Import jwtlib jwt.

(** ** C1 *)

(** C1. A claim set signed and validated under one secret comes back as it
    was exactly when the validation instant lies in the window
    not-before <= now < expires-at; outside the window validation fails
    with the invalid-claims error. In particular the access token of a pair
    issued with an access lifetime of one second is rejected as expired two
    seconds (or more) after it was issued. *)
Theorem verify_sign_roundtrip_window
    `{!JSON Header} `{!JSON Claims} `{!LawfulJSON Header} `{!LawfulJSON Claims} :
  (forall (j : JWTManager) (c : Claims) (nbf exp : NumericDate) (now : Time),
      NotBefore (Registered c) = Some nbf ->
      ExpiresAt (Registered c) = Some exp ->
      exists tokenString,
        signClaims j c = Ok tokenString
        /\ (ValidateToken j now tokenString = Ok c
            <-> NumericDate_Time nbf <= now < NumericDate_Time exp)
        /\ (~ (NumericDate_Time nbf <= now < NumericDate_Time exp) ->
            exists cause,
              ValidateToken j now tokenString
              = Fail (fmt.Errorf_w "failed to parse token: "
                        (newError EmptyString ErrTokenInvalidClaims [cause]))))
  /\ (forall (j : JWTManager) (nowA nowR : Time) (userID : Z) (email username : string)
        (now : Time),
         accessTokenDuration j = time.Second ->
         time.Add nowA (2 * time.Second) <= now ->
         exists pair,
           GenerateTokenPair j nowA nowR userID email username = Ok pair
           /\ ValidateToken j now (pairAccessToken pair)
              = Fail (fmt.Errorf_w "failed to parse token: "
                        (newError EmptyString ErrTokenInvalidClaims
                           [joinErrors [ErrTokenExpired]]))).
Proof.
  split.
  - intros j c nbf exp now Hn He.
    exists (wire hs256Header c (tag (secretKey j) c)).
    split; [apply signClaims_wire|].
    rewrite (ValidateToken_signed j j now c _ (signClaims_wire j c)).
    rewrite String.eqb_refl.
    assert (W : inWindow c now = true <-> NumericDate_Time nbf <= now < NumericDate_Time exp).
    { unfold inWindow. rewrite Hn, He. rewrite andb_true_iff, Z.ltb_lt, Z.leb_le. lia. }
    split.
    + rewrite <- W, Validate_inWindow.
      destruct (Validate Registered now c); split; intros; congruence.
    + intros Hout. destruct (Validate_outside c now) as [cause ->]; [|eauto].
      destruct (inWindow c now); [|reflexivity]. exfalso. apply Hout, W. reflexivity.
  - intros j nowA nowR userID email username now Hd Hnow.
    rewrite GenerateTokenPair_Ok.
    eexists; split; [reflexivity|]. cbn [pairAccessToken].
    rewrite (ValidateToken_signed j j now _ _ (signClaims_wire j _)).
    rewrite String.eqb_refl, Hd.
    unfold Validate, verifyExpiresAt, verifyNotBefore, newClaims, time.Before.
    cbn [Registered ExpiresAt NotBefore].
    pose proof (NumericDate_floor nowA) as F1.
    pose proof (NumericDate_floor (time.Add nowA time.Second)) as F2.
    unfold time.Add, time.Second in *.
    destruct (Z.ltb_spec now (NumericDate_Time (NewNumericDate (nowA + 1000000000)))); [lia|].
    destruct (Z.ltb_spec now (NumericDate_Time (NewNumericDate nowA))); [lia|].
    reflexivity.
Qed.

(** ** C2 *)

(** C2. The strict gate, which is where requests are authorized, rejects
    every bearer token whose type claim is refresh, also when the token
    validates (right signature, inside its window): the request is aborted
    with 401 and the message Invalid token type, nothing is stored in the
    context, and the rest of the chain does not run. *)
Theorem JWTMiddleware_rejects_refresh `{!JSON Header} `{!JSON Claims}
    (j : JWTManager) (now : Time) (next : gin.Context -> gin.Context) (c : gin.Context)
    (tokenString : string) (claims : Claims) :
  gin.Authorization c = "Bearer " +:+ tokenString ->
  ValidateToken j now tokenString = Ok claims ->
  Type_ claims = RefreshToken ->
  middleware.JWTMiddleware j now next c
  = gin.Abort (response.Unauthorized c "Invalid token type")
  /\ gin.Keys (middleware.JWTMiddleware j now next c) = gin.Keys c
  /\ gin.aborted (middleware.JWTMiddleware j now next c) = true
  /\ gin.written (middleware.JWTMiddleware j now next c)
     = gin.written c
       ++ [(401, {| gin.Success := false; gin.ErrorText := "Invalid token type";
                    gin.Code := "UNAUTHORIZED" |})].
Proof.
  intros Hh Hv Hty.
  rewrite (JWTMiddleware_bearer j now next c tokenString Hh
             (ValidateToken_Ok_nonempty _ _ _ _ Hv)).
  rewrite Hv, Hty. repeat split; reflexivity.
Qed.

(** ** C3 *)



(** ** C4 *)


(** ** C5 *)

(** C5. ValidateToken rejects every token string whose declared algorithm
    is not one of the HMAC methods (HS256, HS384, HS512), whatever its
    claims and signature; a token that declares none or one of the
    asymmetric methods is stopped by the key function, with the error
    unexpected signing method. *)
Theorem ValidateToken_rejects_other_algorithms
    `{!JSON Header} `{!JSON Claims} `{!LawfulJSON Header} `{!LawfulJSON Claims} :
  (forall (j : JWTManager) (now : Time) (tokenString : string),
      (forall a, declaredAlg tokenString = Some a -> ~ In a hmacAlgs) ->
      exists err, ValidateToken j now tokenString = Fail err)
  /\ (forall (j : JWTManager) (now : Time) (claims : Claims) (sig a : string)
        (t : option string),
        In a ["none"; "RS256"; "RS384"; "RS512"; "PS256"; "PS384"; "PS512";
              "ES256"; "ES384"; "ES512"; "EdDSA"] ->
        ValidateToken j now (wire {| alg := Some a; typ := t |} claims sig)
        = Fail (fmt.Errorf_w "failed to parse token: "
                  (newError "error while executing keyfunc" ErrTokenUnverifiable
                     [fmt.Errorf ("unexpected signing method: " +:+ a)]))).
Proof.
  split.
  - intros j now tokenString Hnot.
    destruct (ValidateToken j now tokenString) as [claims|err] eqn:E; [|eauto].
    apply ValidateToken_Ok_alg in E as (a & Ha & Hin). now apply Hnot in Ha.
  - intros j now claims sig a t Hin. rewrite ValidateToken_wire. cbn [alg].
    cbn in Hin. repeat (destruct Hin as [<-|Hin]; [reflexivity|]). destruct Hin.
Qed.

(** ** C6 *)

(** C6, as amended. Every failure of ValidateToken is an error whose
    message is failed to parse token: followed by the message of the
    library's error, which it wraps; the library's error in turn wraps one
    of the sentinels malformed, unverifiable, signature invalid or invalid
    claims, so the reason stays available to the caller of ValidateToken.
    The strict gate is where the reasons collapse: on every such failure
    it answers 401 with the one message Invalid or expired token. *)
Theorem ValidateToken_failure_wraps_cause `{!JSON Header} `{!JSON Claims}
    (j : JWTManager) (now : Time) (tokenString : string) (err : error) :
  ValidateToken j now tokenString = Fail err ->
  (exists cause sentinel,
      err = fmt.Errorf_w "failed to parse token: " cause
      /\ Error err = "failed to parse token: " +:+ Error cause
      /\ Unwrap err = [cause]
      /\ In sentinel [ErrTokenMalformed; ErrTokenUnverifiable; ErrTokenSignatureInvalid;
                      ErrTokenInvalidClaims]
      /\ hd_error (Unwrap cause) = Some sentinel)
  /\ (forall (next : gin.Context -> gin.Context) (c : gin.Context),
        gin.Authorization c = "Bearer " +:+ tokenString ->
        tokenString <> EmptyString ->
        middleware.JWTMiddleware j now next c
        = gin.Abort (response.Unauthorized c "Invalid or expired token")).
Proof.
  intros E. split.
  - destruct (ValidateToken_Fail j now tokenString err E) as (cause & sentinel & -> & Hin & Hs).
    exists cause, sentinel. repeat split; assumption.
  - intros next c Hh Hne.
    rewrite (JWTMiddleware_bearer j now next c tokenString Hh); [now rewrite E|].
    now apply String.eqb_neq.
Qed.

(** ** C7 *)


(** ** C8 *)

(** C8. On the header Bearer followed by nothing, the strict gate aborts
    with 401 (Token is required) and the optional gate hands the unchanged
    context to the rest of the chain. More generally, on every failure of
    one of the shared steps (no header, no Bearer prefix, empty token,
    validation error, token type other than access) the optional gate
    continues with the unchanged context, where the strict gate aborts with
    a 401 response. *)
Theorem gates_on_failure `{!JSON Header} `{!JSON Claims} :
  (forall (j : JWTManager) (now : Time) (next : gin.Context -> gin.Context) (c : gin.Context),
      gin.Authorization c = "Bearer " ->
      middleware.JWTMiddleware j now next c
      = gin.Abort (response.Unauthorized c "Token is required")
      /\ middleware.OptionalJWTMiddleware j now next c = next c)
  /\ (forall (j : JWTManager) (now : Time) (next : gin.Context -> gin.Context) (c : gin.Context),
        gateFailure j now c ->
        middleware.OptionalJWTMiddleware j now next c = next c
        /\ exists message,
             middleware.JWTMiddleware j now next c
             = gin.Abort (response.Unauthorized c message)).
Proof.
  split.
  - intros j now next c Hh.
    unfold middleware.JWTMiddleware, middleware.OptionalJWTMiddleware,
      gin.GetHeader_Authorization.
    rewrite Hh. split; reflexivity.
  - intros j now next c Hf.
    unfold gateFailure in Hf.
    unfold middleware.JWTMiddleware, middleware.OptionalJWTMiddleware,
      gin.GetHeader_Authorization.
    destruct (String.eqb_spec (gin.Authorization c) EmptyString) as [E0|N0]; [eauto|].
    destruct (strings.HasPrefix (gin.Authorization c) "Bearer ") eqn:Hp; cbn [negb]; [|eauto].
    destruct (String.eqb_spec (strings.TrimPrefix (gin.Authorization c) "Bearer ") EmptyString)
      as [E1|N1]; [eauto|].
    destruct Hf as [F|[F|[F|[[err F]|[claims [F Hty]]]]]]; try congruence.
    + rewrite F. eauto.
    + rewrite F.
      destruct (String.eqb_spec (Type_ claims) AccessToken); [contradiction|]. cbn. eauto.
Qed.

(** ** C9 *)


(** ** C10 *)


(** * The claims on sample data *)

Module OnSample.
Import Sample.

#[local] Existing Instance headerJSON_lawful.
#[local] Existing Instance claimsJSON_lawful.
#[local] Existing Instance repository.postgresUserRepository.

Lemma verify_sign_roundtrip_window_witness :
(NotBefore (Registered Scenario.accessClaims) = Some 1700000000
 /\ ExpiresAt (Registered Scenario.accessClaims) = Some 1700000900
 /\ exists tokenString,
      signClaims Scenario.manager Scenario.accessClaims = Ok tokenString
      /\ (ValidateToken Scenario.manager (Scenario.t0 + time.Minute) tokenString
          = Ok Scenario.accessClaims
          <-> NumericDate_Time 1700000000 <= Scenario.t0 + time.Minute
              < NumericDate_Time 1700000900)
      /\ (~ (NumericDate_Time 1700000000 <= Scenario.t0 + time.Minute
             < NumericDate_Time 1700000900) ->
          exists cause,
            ValidateToken Scenario.manager (Scenario.t0 + time.Minute) tokenString
            = Fail (fmt.Errorf_w "failed to parse token: "
                      (newError EmptyString ErrTokenInvalidClaims [cause]))))
/\ (accessTokenDuration Scenario.shortManager = time.Second
    /\ time.Add Scenario.t0 (2 * time.Second) <= Scenario.t0 + 2 * time.Second
    /\ exists pair,
         GenerateTokenPair Scenario.shortManager Scenario.t0 Scenario.t0 7 "a@x.com" "alice"
         = Ok pair
         /\ ValidateToken Scenario.shortManager (Scenario.t0 + 2 * time.Second)
              (pairAccessToken pair)
            = Fail (fmt.Errorf_w "failed to parse token: "
                      (newError EmptyString ErrTokenInvalidClaims
                         [joinErrors [ErrTokenExpired]]))).
Proof.
destruct (verify_sign_roundtrip_window) as [W S].
split.
- assert (Hn : NotBefore (Registered Scenario.accessClaims) = Some 1700000000)
    by (vm_compute; reflexivity).
  assert (He : ExpiresAt (Registered Scenario.accessClaims) = Some 1700000900)
    by (vm_compute; reflexivity).
  split; [exact Hn|]. split; [exact He|].
  exact (W Scenario.manager Scenario.accessClaims 1700000000 1700000900
           (Scenario.t0 + time.Minute) Hn He).
- assert (Hd : accessTokenDuration Scenario.shortManager = time.Second) by reflexivity.
  assert (Hl : time.Add Scenario.t0 (2 * time.Second) <= Scenario.t0 + 2 * time.Second)
    by (vm_compute; discriminate).
  split; [exact Hd|]. split; [exact Hl|].
  exact (S Scenario.shortManager Scenario.t0 Scenario.t0 7 "a@x.com" "alice"
           (Scenario.t0 + 2 * time.Second) Hd Hl).
Defined.

Lemma JWTMiddleware_rejects_refresh_witness :
let c := Scenario.request ("Bearer " +:+ Scenario.refreshToken) in
let now := Scenario.t0 + time.Hour in
gin.Authorization c = "Bearer " +:+ Scenario.refreshToken
/\ ValidateToken Scenario.manager now Scenario.refreshToken = Ok Scenario.refreshClaims
/\ Type_ Scenario.refreshClaims = RefreshToken
/\ middleware.JWTMiddleware Scenario.manager now id c
   = gin.Abort (response.Unauthorized c "Invalid token type").
Proof.
intros c now.
assert (Hh : gin.Authorization c = "Bearer " +:+ Scenario.refreshToken) by reflexivity.
assert (Hv : ValidateToken Scenario.manager now Scenario.refreshToken
             = Ok Scenario.refreshClaims) by (vm_compute; reflexivity).
assert (Hty : Type_ Scenario.refreshClaims = RefreshToken) by reflexivity.
split; [exact Hh|]. split; [exact Hv|]. split; [exact Hty|].
exact (proj1 (JWTMiddleware_rejects_refresh Scenario.manager now id c
                Scenario.refreshToken Scenario.refreshClaims Hh Hv Hty)).
Defined.




Lemma ValidateToken_rejects_other_algorithms_witness :
((forall a, declaredAlg Scenario.noneToken = Some a -> ~ In a hmacAlgs)
 /\ exists err, ValidateToken Scenario.manager Scenario.t0 Scenario.noneToken = Fail err)
/\ (In "RS256" ["none"; "RS256"; "RS384"; "RS512"; "PS256"; "PS384"; "PS512";
                "ES256"; "ES384"; "ES512"; "EdDSA"]
    /\ ValidateToken Scenario.manager Scenario.t0
         (wire {| alg := Some "RS256"; typ := Some "JWT" |} Scenario.accessClaims "forged")
       = Fail (fmt.Errorf_w "failed to parse token: "
                 (newError "error while executing keyfunc" ErrTokenUnverifiable
                    [fmt.Errorf ("unexpected signing method: " +:+ "RS256")]))).
Proof.
destruct ValidateToken_rejects_other_algorithms as [A B].
assert (Hn : forall a, declaredAlg Scenario.noneToken = Some a -> ~ In a hmacAlgs).
{ intros a Ha. vm_compute in Ha. injection Ha as <-.
  cbn. intros [E|[E|[E|[]]]]; discriminate E. }
assert (Hi : In "RS256" ["none"; "RS256"; "RS384"; "RS512"; "PS256"; "PS384"; "PS512";
                         "ES256"; "ES384"; "ES512"; "EdDSA"])
  by (right; left; reflexivity).
split.
- split; [exact Hn|]. exact (A Scenario.manager Scenario.t0 Scenario.noneToken Hn).
- split; [exact Hi|].
  exact (B Scenario.manager Scenario.t0 Scenario.accessClaims "forged" "RS256"
           (Some "JWT") Hi).
Defined.

(** C6 as it is stated fails: a malformed string, a token signed under
  another secret and an expired token fail with three different errors. *)
Lemma ValidateToken_failures_distinguished :
exists e1 e2 e3,
  ValidateToken Scenario.manager (Scenario.t0 + time.Minute) "not-a-token" = Fail e1
  /\ ValidateToken Scenario.otherManager (Scenario.t0 + time.Minute) Scenario.accessToken
     = Fail e2
  /\ ValidateToken Scenario.manager (Scenario.t0 + time.Hour) Scenario.accessToken = Fail e3
  /\ Error e1
     = "failed to parse token: token is malformed: token contains an invalid number of segments"
  /\ Error e2 = "failed to parse token: token signature is invalid: signature is invalid"
  /\ Error e3 = "failed to parse token: token has invalid claims: token is expired"
  /\ e1 <> e2 /\ e2 <> e3 /\ e1 <> e3.
Proof.
do 3 eexists.
split; [vm_compute; reflexivity|].
split; [vm_compute; reflexivity|].
split; [vm_compute; reflexivity|].
repeat split; try reflexivity; discriminate.
Qed.

Lemma ValidateToken_failure_wraps_cause_witness :
let now := Scenario.t0 + time.Hour in
let c := Scenario.request ("Bearer " +:+ Scenario.accessToken) in
let err := fmt.Errorf_w "failed to parse token: "
             (newError EmptyString ErrTokenInvalidClaims [joinErrors [ErrTokenExpired]]) in
ValidateToken Scenario.manager now Scenario.accessToken = Fail err
/\ (exists cause sentinel,
       err = fmt.Errorf_w "failed to parse token: " cause
       /\ Error err = "failed to parse token: " +:+ Error cause
       /\ Unwrap err = [cause]
       /\ In sentinel [ErrTokenMalformed; ErrTokenUnverifiable; ErrTokenSignatureInvalid;
                       ErrTokenInvalidClaims]
       /\ hd_error (Unwrap cause) = Some sentinel)
/\ gin.Authorization c = "Bearer " +:+ Scenario.accessToken
/\ Scenario.accessToken <> EmptyString
/\ middleware.JWTMiddleware Scenario.manager now id c
   = gin.Abort (response.Unauthorized c "Invalid or expired token").
Proof.
intros now c err.
assert (Hv : ValidateToken Scenario.manager now Scenario.accessToken = Fail err)
  by (vm_compute; reflexivity).
assert (Hh : gin.Authorization c = "Bearer " +:+ Scenario.accessToken) by reflexivity.
assert (Hn : Scenario.accessToken <> EmptyString) by discriminate.
destruct (ValidateToken_failure_wraps_cause Scenario.manager now Scenario.accessToken
            err Hv) as [W G].
split; [exact Hv|]. split; [exact W|]. split; [exact Hh|]. split; [exact Hn|].
exact (G id c Hh Hn).
Defined.


Lemma gates_on_failure_witness :
let j := Scenario.manager in
let now := Scenario.t0 + time.Minute in
let c := Scenario.request "Bearer " in
let c' := Scenario.request ("Bearer " +:+ Scenario.refreshToken) in
(gin.Authorization c = "Bearer "
 /\ middleware.JWTMiddleware j now id c
    = gin.Abort (response.Unauthorized c "Token is required")
 /\ middleware.OptionalJWTMiddleware j now id c = c)
/\ (gateFailure j now c'
    /\ middleware.OptionalJWTMiddleware j now id c' = c'
    /\ exists message,
         middleware.JWTMiddleware j now id c'
         = gin.Abort (response.Unauthorized c' message)).
Proof.
intros j now c c'.
destruct gates_on_failure as [A B].
assert (Hh : gin.Authorization c = "Bearer ") by reflexivity.
assert (Hf : gateFailure j now c').
{ right; right; right; right. exists Scenario.refreshClaims.
  split; [vm_compute; reflexivity | discriminate]. }
split.
- split; [exact Hh|]. exact (A j now id c Hh).
- split; [exact Hf|]. exact (B j now id c' Hf).
Defined.




End OnSample.

(** * Further properties *)

(** ** The gates and the identity they store *)

Section GateIdentity.
Import gin middleware.
Context `{!JSON Header} `{!JSON Claims}.

(** The optional gate on a request that carries a bearer token. *)
Lemma OptionalJWTMiddleware_bearer (j : JWTManager) (now : Time) next c tokenString :
  Authorization c = "Bearer " +:+ tokenString ->
  String.eqb tokenString EmptyString = false ->
  OptionalJWTMiddleware j now next c
  = match ValidateToken j now tokenString with
    | Fail _ => next c
    | Ok claims =>
        if negb (String.eqb (Type_ claims) AccessToken) then next c
        else next (storeUser claims c)
    end.
Proof.
  intros Hh Ht. unfold OptionalJWTMiddleware, GetHeader_Authorization. rewrite Hh.
  rewrite bearer_nonempty, HasPrefix_app, TrimPrefix_app, Ht. reflexivity.
Qed.

Lemma GetUserIDFromContext_storeUser (claims : Claims) (c : Context) :
  GetUserIDFromContext (storeUser claims c) = (UserID claims, true).
Proof.
  unfold GetUserIDFromContext, storeUser, Get, Set_. cbn [Keys].
  rewrite !lookup_insert_ne by discriminate. now rewrite lookup_insert.
Qed.

(** X1. A request whose bearer token validates with type access passes both
    gates: the rest of the chain runs on the context in which the four
    identity keys hold the token's claims. There the four getters return
    the user id, email, username and claims of the token (whatever the keys
    held before); every other key, the header, the abort flag and the
    responses are as in the request. *)
Theorem gates_store_identity (j : JWTManager) (now : Time) (next : Context -> Context)
    (c : Context) (tokenString : string) (claims : Claims) :
  Authorization c = "Bearer " +:+ tokenString ->
  ValidateToken j now tokenString = Ok claims ->
  Type_ claims = AccessToken ->
  let c' := storeUser claims c in
  JWTMiddleware j now next c = next c'
  /\ OptionalJWTMiddleware j now next c = next c'
  /\ GetUserIDFromContext c' = (UserID claims, true)
  /\ GetUserEmailFromContext c' = (Email claims, true)
  /\ GetUserUsernameFromContext c' = (Username claims, true)
  /\ GetUserClaimsFromContext c' = (Some claims, true)
  /\ (forall key,
        ~ In key ["user_id"; "user_email"; "user_username"; "user_claims"] ->
        Get key c' = Get key c)
  /\ Authorization c' = Authorization c
  /\ aborted c' = aborted c
  /\ written c' = written c.
Proof.
  intros Hh Hv Hty c'.
  pose proof (ValidateToken_Ok_nonempty _ _ _ _ Hv) as Hne.
  rewrite (JWTMiddleware_bearer j now next c tokenString Hh Hne).
  rewrite (OptionalJWTMiddleware_bearer j now next c tokenString Hh Hne).
  rewrite Hv, Hty. cbn [negb String.eqb].
  split; [reflexivity|]. split; [reflexivity|].
  split; [apply GetUserIDFromContext_storeUser|].
  unfold c', GetUserEmailFromContext, GetUserUsernameFromContext, GetUserClaimsFromContext,
    storeUser, Get, Set_. cbn [Keys Authorization aborted written].
  repeat split.
  - rewrite !lookup_insert_ne by discriminate. now rewrite lookup_insert.
  - rewrite !lookup_insert_ne by discriminate. now rewrite lookup_insert.
  - now rewrite lookup_insert.
  - intros key Hk. cbn [In] in Hk.
    rewrite !lookup_insert_ne by (intros <-; tauto). reflexivity.
Qed.

(** X2. On a request whose context holds no user id, the optional gate
    followed by RequireAuth lets through what the strict gate lets through:
    every failure of a shared step is answered with 401 (Authentication
    required) and the chain stops; a bearer token that validates with type
    access reaches the rest of the chain on the same context as under the
    strict gate. *)
Theorem OptionalJWTMiddleware_then_RequireAuth (j : JWTManager) (now : Time)
    (next : Context -> Context) (c : Context) :
  snd (GetUserIDFromContext c) = false ->
  (gateFailure j now c ->
   OptionalJWTMiddleware j now (RequireAuth next) c
   = Abort (response.Unauthorized c "Authentication required"))
  /\ (forall tokenString claims,
        Authorization c = "Bearer " +:+ tokenString ->
        ValidateToken j now tokenString = Ok claims ->
        Type_ claims = AccessToken ->
        OptionalJWTMiddleware j now (RequireAuth next) c = JWTMiddleware j now next c
        /\ JWTMiddleware j now next c = next (storeUser claims c)).
Proof.
  intros Hno.
  assert (Hr : RequireAuth next c = Abort (response.Unauthorized c "Authentication required")).
  { unfold RequireAuth. destruct (GetUserIDFromContext c) as [i found].
    cbn in Hno. now rewrite Hno. }
  split.
  - intros Hf. unfold gateFailure in Hf.
    unfold OptionalJWTMiddleware, GetHeader_Authorization.
    destruct (String.eqb_spec (Authorization c) EmptyString) as [E0|N0]; [exact Hr|].
    destruct (strings.HasPrefix (Authorization c) "Bearer ") eqn:Hp; cbn [negb]; [|exact Hr].
    destruct (String.eqb_spec (strings.TrimPrefix (Authorization c) "Bearer ") EmptyString)
      as [E1|N1]; [exact Hr|].
    destruct Hf as [F|[F|[F|[[err F]|[claims [F Hty]]]]]]; try congruence.
    + now rewrite F.
    + rewrite F.
      destruct (String.eqb_spec (Type_ claims) AccessToken); [contradiction|]. exact Hr.
  - intros tokenString claims Hh Hv Hty.
    pose proof (ValidateToken_Ok_nonempty _ _ _ _ Hv) as Hne.
    rewrite (JWTMiddleware_bearer j now next c tokenString Hh Hne).
    rewrite (OptionalJWTMiddleware_bearer j now _ c tokenString Hh Hne).
    rewrite Hv, Hty. cbn [negb String.eqb].
    split; [|reflexivity].
    unfold RequireAuth. now rewrite GetUserIDFromContext_storeUser.
Qed.

End GateIdentity.

Section GateSound.
Import gin middleware.
Context `{!JSON Header} `{!JSON Claims}.

Lemma HasPrefix_split (s prefix : string) :
  strings.HasPrefix s prefix = true -> s = prefix +:+ strings.TrimPrefix s prefix.
Proof.
  unfold strings.TrimPrefix. intros Hp. rewrite Hp. revert s Hp.
  induction prefix as [|a p IH]; intros s Hp.
  - rewrite append_nil_l. cbn [String.length]. rewrite Nat.sub_0_r. now rewrite substring_all.
  - destruct s as [|b s]; [discriminate|].
    cbn [strings.HasPrefix] in Hp. apply andb_true_iff in Hp as [Hb Hp].
    apply Ascii.eqb_eq in Hb. subst b.
    rewrite append_cons. cbn [String.length String.substring Nat.sub].
    f_equal. exact (IH s Hp).
Qed.

(** X3. Nothing passes the strict gate without a valid access token: on
    every request, either the gate aborts with a 401 response and the
    context otherwise unchanged, and the rest of the chain does not run, or
    the header is Bearer followed by a token that ValidateToken accepts
    with type access, and the rest of the chain runs on the context that
    holds that token's claims. *)
Theorem JWTMiddleware_sound (j : JWTManager) (now : Time) (next : Context -> Context)
    (c : Context) :
  (exists message,
     JWTMiddleware j now next c = Abort (response.Unauthorized c message)
     /\ Keys (JWTMiddleware j now next c) = Keys c
     /\ aborted (JWTMiddleware j now next c) = true)
  \/ (exists tokenString claims,
        Authorization c = "Bearer " +:+ tokenString
        /\ ValidateToken j now tokenString = Ok claims
        /\ Type_ claims = AccessToken
        /\ JWTMiddleware j now next c = next (storeUser claims c)).
Proof.
  unfold JWTMiddleware, GetHeader_Authorization.
  destruct (String.eqb (Authorization c) EmptyString); [left; eexists; repeat split|].
  destruct (strings.HasPrefix (Authorization c) "Bearer ") eqn:Hp; cbn [negb];
    [|left; eexists; repeat split].
  apply HasPrefix_split in Hp.
  destruct (String.eqb (strings.TrimPrefix (Authorization c) "Bearer ") EmptyString);
    [left; eexists; repeat split|].
  destruct (ValidateToken j now _) as [claims|e] eqn:Hv; [|left; eexists; repeat split].
  destruct (String.eqb_spec (Type_ claims) AccessToken) as [Hty|Hty]; cbn [negb];
    [|left; eexists; repeat split].
  right. exists (strings.TrimPrefix (Authorization c) "Bearer "), claims.
  repeat split; assumption.
Qed.

End GateSound.


(** ** Tokens over time *)

Section TokenTime.
Context `{!JSON Header} `{!JSON Claims}.

Lemma ParseWithClaims_other_instant (now now' : Time) tokenString
    (keyFunc : Keyfunc (C := Claims)) token :
  ParseWithClaims Registered now tokenString keyFunc = Ok token ->
  Validate Registered now (TokenClaims token) = None
  /\ ParseWithClaims Registered now' tokenString keyFunc
     = match Validate Registered now' (TokenClaims token) with
       | Some e => Fail (newError EmptyString ErrTokenInvalidClaims [e])
       | None => Ok token
       end.
Proof.
  unfold ParseWithClaims.
  destruct (ParseUnverified tokenString) as [[t parts]|]; [|discriminate].
  destruct (DecodeSegment _); [|discriminate].
  destruct (keyFunc _); [|discriminate].
  destruct (Verify _ _ _ _); [discriminate|].
  cbn [TokenClaims].
  destruct (Validate Registered now (TokenClaims t)) eqn:E; [discriminate|].
  intros [= <-]. cbn [TokenClaims]. split; [exact E|].
  destruct (Validate Registered now' (TokenClaims t)); reflexivity.
Qed.

(** X4. Time enters the verdict on a token string only through the window
    of its claims: a string that ValidateToken accepts at one instant lies
    in its window then, gives the same claims at every instant of the
    window, and fails with the invalid-claims error at every instant
    outside it. *)
Theorem ValidateToken_over_time (j : JWTManager) (now : Time) (tokenString : string)
    (claims : Claims) :
  ValidateToken j now tokenString = Ok claims ->
  inWindow claims now = true
  /\ forall now' : Time,
       if inWindow claims now' then ValidateToken j now' tokenString = Ok claims
       else exists cause,
              ValidateToken j now' tokenString
              = Fail (fmt.Errorf_w "failed to parse token: "
                        (newError EmptyString ErrTokenInvalidClaims [cause])).
Proof.
  unfold ValidateToken.
  destruct (ParseWithClaims Registered now tokenString (keyfunc j)) as [token|] eqn:E;
    [|discriminate].
  pose proof (ParseWithClaims_Ok _ _ _ _ E) as [Hval _].
  rewrite Hval. cbn [negb]. intros [= <-].
  split.
  - apply Validate_inWindow. eapply ParseWithClaims_other_instant, E. exact now.
  - intros now'.
    destruct (ParseWithClaims_other_instant now now' _ _ _ E) as [_ ->].
    destruct (inWindow (TokenClaims token) now') eqn:W.
    + apply Validate_inWindow in W. rewrite W, Hval. reflexivity.
    + destruct (Validate_outside _ _ W) as [cause ->]. eauto.
Qed.

End TokenTime.

Section TokenLifetime.
Context `{!JSON Header} `{!JSON Claims} `{!LawfulJSON Header} `{!LawfulJSON Claims}.

Lemma inWindow_newClaims (t : Time) userID email username ty d (now : Time) :
  inWindow (newClaims t userID email username ty d) now
  = (now <? NumericDate_Time (NewNumericDate (time.Add t d)))
    && (NumericDate_Time (NewNumericDate t) <=? now).
Proof. reflexivity. Qed.

Lemma ValidateToken_generated (j : JWTManager) (t : Time) userID email username ty d
    (now : Time) tokenString :
  generateToken j t userID email username ty d = Ok tokenString ->
  if inWindow (newClaims t userID email username ty d) now
  then ValidateToken j now tokenString = Ok (newClaims t userID email username ty d)
  else exists cause,
         ValidateToken j now tokenString
         = Fail (fmt.Errorf_w "failed to parse token: "
                   (newError EmptyString ErrTokenInvalidClaims [cause])).
Proof.
  unfold generateToken. intros Hs.
  rewrite (ValidateToken_signed j j now _ _ Hs), String.eqb_refl.
  destruct (inWindow _ now) eqn:W.
  - apply Validate_inWindow in W. now rewrite W.
  - destruct (Validate_outside _ _ W) as [cause E]. rewrite E. eauto.
Qed.

(** X5. Expiry and not-before are cut to whole seconds, so a token issued
    at [t] for the duration [d] is accepted at every instant from [t] up to
    one second before [t + d], and rejected at every instant from [t + d]
    on: its lifetime on the clock is between [d] minus one second and
    [d]. *)
Theorem generateToken_lifetime (j : JWTManager) (t : Time) (userID : Z)
    (email username : string) (ty : TokenType) (d : Duration) (tokenString : string) :
  generateToken j t userID email username ty d = Ok tokenString ->
  (forall now : Time,
      t <= now -> now + time.Second <= time.Add t d ->
      ValidateToken j now tokenString = Ok (newClaims t userID email username ty d))
  /\ (forall now : Time,
        time.Add t d <= now ->
        exists cause,
          ValidateToken j now tokenString
          = Fail (fmt.Errorf_w "failed to parse token: "
                    (newError EmptyString ErrTokenInvalidClaims [cause]))).
Proof.
  intros Hs. split; intros now.
  - intros H1 H2. pose proof (ValidateToken_generated j _ _ _ _ _ _ now _ Hs) as V.
    rewrite inWindow_newClaims in V.
    pose proof (NumericDate_floor t). pose proof (NumericDate_floor (time.Add t d)).
    destruct (Z.ltb_spec now (NumericDate_Time (NewNumericDate (time.Add t d)))); [|lia].
    destruct (Z.leb_spec (NumericDate_Time (NewNumericDate t)) now); [|lia].
    exact V.
  - intros H1. pose proof (ValidateToken_generated j _ _ _ _ _ _ now _ Hs) as V.
    rewrite inWindow_newClaims in V.
    pose proof (NumericDate_floor (time.Add t d)).
    destruct (Z.ltb_spec now (NumericDate_Time (NewNumericDate (time.Add t d)))); [lia|].
    exact V.
Qed.

(** X6. A token whose expiry falls in the second of its issue or before it
    (a duration of zero or less, or a fraction of a second that does not
    reach the next second) is accepted at no instant. *)
Theorem generateToken_dead_on_arrival (j : JWTManager) (t : Time) (userID : Z)
    (email username : string) (ty : TokenType) (d : Duration) (tokenString : string)
    (now : Time) :
  generateToken j t userID email username ty d = Ok tokenString ->
  NewNumericDate (time.Add t d) <= NewNumericDate t ->
  exists cause,
    ValidateToken j now tokenString
    = Fail (fmt.Errorf_w "failed to parse token: "
              (newError EmptyString ErrTokenInvalidClaims [cause])).
Proof.
  intros Hs Hle. pose proof (ValidateToken_generated j _ _ _ _ _ _ now _ Hs) as V.
  rewrite inWindow_newClaims in V.
  assert (NumericDate_Time (NewNumericDate (time.Add t d))
          <= NumericDate_Time (NewNumericDate t)).
  { unfold NumericDate_Time. unfold time.Second. lia. }
  destruct (Z.ltb_spec now (NumericDate_Time (NewNumericDate (time.Add t d)))); [|exact V].
  destruct (Z.leb_spec (NumericDate_Time (NewNumericDate t)) now); [lia|exact V].
Qed.

(** X7. Identity is invariant along a run of refreshes: starting from a
    pair issued for a user id, email and username, every run of
    RefreshAccessToken calls that succeeds, each on the refresh token of the
    pair before it, ends in the pair that GenerateTokenPair gives for the
    same user id, email and username at the clock readings of the last
    call. *)
Theorem refreshChain_keeps_identity (j : JWTManager) (userID : Z) (email username : string)
    (steps : list (Time * Time * Time)) (tA tR : Time) (pair0 pairN : TokenPair) :
  GenerateTokenPair j tA tR userID email username = Ok pair0 ->
  refreshChain j pair0 steps = Ok pairN ->
  let readings := fold_left (fun _ step => (snd (fst step), snd step)) steps (tA, tR) in
  GenerateTokenPair j (fst readings) (snd readings) userID email username = Ok pairN.
Proof.
  revert tA tR pair0.
  induction steps as [|[[now nowA] nowR] rest IH]; intros tA tR pair0 Hg Hc.
  - cbn in *. congruence.
  - cbn [refreshChain] in Hc.
    destruct (RefreshAccessToken j now nowA nowR (pairRefreshToken pair0)) as [pair1|] eqn:Er;
      [|discriminate].
    assert (Hg1 : GenerateTokenPair j nowA nowR userID email username = Ok pair1).
    { rewrite GenerateTokenPair_Ok in Hg. injection Hg as <-.
      cbn [pairRefreshToken] in Er. unfold RefreshAccessToken in Er.
      rewrite (ValidateToken_signed j j now _ _ (signClaims_wire j _)) in Er.
      rewrite String.eqb_refl in Er.
      destruct (Validate Registered now _); [discriminate|].
      exact Er. }
    exact (IH nowA nowR pair1 Hg1 Hc).
Qed.

End TokenLifetime.

(** ** The postgres repository *)

Section PostgresFacts.
Import models repository.

Lemma roundTrip_users (db : pgxpool) : users (snd (roundTrip db)) = users db.
Proof. unfold roundTrip. now destruct (faults db). Qed.

Lemma find_In_true {A} (f : A -> bool) (l : list A) (a : A) :
  find f l = Some a -> In a l /\ f a = true.
Proof. apply find_some. Qed.

Lemma find_existsb {A} (f : A -> bool) (l : list A) :
  existsb f l = match find f l with Some _ => true | None => false end.
Proof. induction l as [|a l IH]; cbn; [reflexivity|]. now destruct (f a). Qed.

(** X8. When the store serves the statement, the existence checks agree
    with the lookups: CheckEmailExists reports true exactly when GetByEmail
    finds a row, and the row found is a row of the table with that email;
    the same holds for usernames. None of the four changes a row. *)
Theorem pg_checks_agree_with_lookups (db db' : pgxpool) (email username : string) :
  roundTrip db = (None, db') ->
  (pgCheckEmailExists db email
   = (Ok match fst (pgGetByEmail db email) with Ok _ => true | Fail _ => false end, db')
   /\ forall u, fst (pgGetByEmail db email) = Ok u -> In u (users db) /\ Email u = email)
  /\ (pgCheckUsernameExists db username
      = (Ok match fst (pgGetByUsername db username) with Ok _ => true | Fail _ => false end,
         db')
      /\ forall u, fst (pgGetByUsername db username) = Ok u ->
                   In u (users db) /\ Username u = username)
  /\ users (snd (pgGetByEmail db email)) = users db
  /\ users (snd (pgGetByUsername db username)) = users db
  /\ users (snd (pgCheckEmailExists db email)) = users db
  /\ users (snd (pgCheckUsernameExists db username)) = users db.
Proof.
  intros Hr. pose proof (roundTrip_users db) as Hu. rewrite Hr in Hu. cbn in Hu.
  unfold pgCheckEmailExists, pgGetByEmail, pgCheckUsernameExists, pgGetByUsername.
  rewrite Hr, !find_existsb.
  split; [split | split; [split|]].
  - now destruct (find _ (users db)).
  - intros u Hf. destruct (find _ (users db)) eqn:Ef; cbn in Hf; [|discriminate].
    injection Hf as <-. apply find_In_true in Ef as [Hin He].
    split; [exact Hin | now apply String.eqb_eq].
  - now destruct (find _ (users db)).
  - intros u Hf. destruct (find _ (users db)) eqn:Ef; cbn in Hf; [|discriminate].
    injection Hf as <-. apply find_In_true in Ef as [Hin He].
    split; [exact Hin | now apply String.eqb_eq].
  - split; [now destruct (find _ (users db))|].
    split; [now destruct (find _ (users db))|]. split; exact Hu.
Qed.


Lemma map_link_field {A} (f : User -> A) (userID telegramID : Z) (t : Time) (l : list User) :
  (forall u, f {| ID := ID u; Email := Email u; Username := Username u;
                  Password := Password u; TelegramID := Some telegramID;
                  CreatedAt := CreatedAt u; UpdatedAt := t |} = f u) ->
  map f (map (fun u =>
                if ID u =? userID then
                  {| ID := ID u; Email := Email u; Username := Username u;
                     Password := Password u; TelegramID := Some telegramID;
                     CreatedAt := CreatedAt u; UpdatedAt := t |}
                else u) l) = map f l.
Proof.
  intros Hf. rewrite map_map. apply map_ext. intros u.
  destruct (ID u =? userID); [apply Hf | reflexivity].
Qed.

(** X10. LinkTelegram writes two columns only, and only in the rows with
    the given id: whatever its outcome, the table has the same ids, emails,
    usernames, password hashes and creation times in the same order, and
    every row with another id is in the table as it was. When it returns
    an error the whole table is as before; it returns the error
    user with id N not found when the statement ran and no row has the
    id. *)
Theorem pgLinkTelegram_frame (db : pgxpool) (userID telegramID : Z) :
  let out := pgLinkTelegram db userID telegramID in
  map ID (users (snd out)) = map ID (users db)
  /\ map Email (users (snd out)) = map Email (users db)
  /\ map Username (users (snd out)) = map Username (users db)
  /\ map Password (users (snd out)) = map Password (users db)
  /\ map CreatedAt (users (snd out)) = map CreatedAt (users db)
  /\ (forall u, In u (users db) -> ID u <> userID -> In u (users (snd out)))
  /\ (fst out <> None -> users (snd out) = users db)
  /\ (fst (roundTrip db) = None ->
      (forall u, In u (users db) -> ID u <> userID) ->
      fst out
      = Some (fmt.Errorf ("user with id " +:+ fmt.Sprintf_d userID +:+ " not found"))).
Proof.
  intros out. subst out. unfold pgLinkTelegram.
  pose proof (roundTrip_users db) as Hu.
  destruct (roundTrip db) as [[e|] db'] eqn:Hr; cbn [snd] in Hu.
  { cbn [fst snd]. rewrite Hu. repeat split; try tauto. discriminate. }
  destruct (length _ =? 0)%nat eqn:El.
  { cbn [fst snd]. rewrite Hu. repeat split; tauto. }
  cbn [fst snd users].
  split; [now apply map_link_field|]. split; [now apply map_link_field|].
  split; [now apply map_link_field|]. split; [now apply map_link_field|].
  split; [now apply map_link_field|].
  split; [|split].
  - intros u Hin Hid. apply in_map_iff. exists u. split; [|exact Hin].
    destruct (Z.eqb_spec (ID u) userID); [contradiction | reflexivity].
  - intros Hn. now contradiction Hn.
  - intros _ Hnone. exfalso. apply Nat.eqb_neq in El. apply El.
    destruct (filter (fun u => ID u =? userID) (users db)) as [|u l] eqn:Ef; [reflexivity|].
    assert (Hin : In u (filter (fun u => ID u =? userID) (users db)))
      by (rewrite Ef; now left).
    apply filter_In in Hin as [Hin Hid]. apply Z.eqb_eq in Hid.
    now destruct (Hnone u Hin).
Qed.

(** X11. What LinkTelegram wrote is what GetByTelegramID reads: after a
    successful LinkTelegram, on a table in which no row of another user
    held the Telegram ID, a served GetByTelegramID returns a row with the
    given user id and the Telegram ID. *)
Theorem pgLinkTelegram_then_pgGetByTelegramID (db db' db'' : pgxpool)
    (userID telegramID : Z) :
  pgLinkTelegram db userID telegramID = (None, db') ->
  roundTrip db' = (None, db'') ->
  (forall u, In u (users db) -> TelegramID u = Some telegramID -> ID u = userID) ->
  exists u,
    pgGetByTelegramID db' telegramID = (Ok u, db'')
    /\ ID u = userID /\ TelegramID u = Some telegramID.
Proof.
  intros Hl Hr Huniq.
  destruct (pgLinkTelegram_persists _ _ _ _ Hl) as (w & Hw & Hwid & Hwtg).
  unfold pgGetByTelegramID. rewrite Hr.
  destruct (find (fun u => bool_decide (TelegramID u = Some telegramID)) (users db'))
    as [u|] eqn:Ef.
  - exists u. split; [reflexivity|].
    apply find_In_true in Ef as [Hin Htg]. apply bool_decide_eq_true_1 in Htg.
    split; [|exact Htg].
    revert Hl Hin. unfold pgLinkTelegram.
    destruct (roundTrip db) as [[e|] p]; [discriminate|].
    destruct (length _ =? 0)%nat; [discriminate|].
    intros [= <-]. cbn [users]. intros Hin.
    apply in_map_iff in Hin as (v & Hv & Hvin).
    destruct (Z.eqb_spec (ID v) userID) as [Eid|Nid].
    + subst u. exact Eid.
    + subst u. exact (Huniq v Hvin Htg).
  - exfalso. apply (find_none _ _ Ef) in Hw. apply bool_decide_eq_false_1 in Hw.
    contradiction.
Qed.

End PostgresFacts.

(** ** The account service *)

Section PasswordFacts.
Import models.
Context `{!Bcrypt} `{!BcryptGenerate}.

(** X12. Provided bcrypt accepts a password against the hash it generated
    from it, the user that HashPassword leaves passes CheckPassword with
    the password it had, holds the hash in the place of the password, and
    has every other field as before. *)
Theorem HashPassword_then_CheckPassword (u u' : User) :
  (forall password hash,
      GenerateFromPassword password = Ok hash ->
      CompareHashAndPassword hash password = None) ->
  HashPassword u = (None, u') ->
  CheckPassword u' (Password u) = true
  /\ GenerateFromPassword (Password u) = Ok (Password u')
  /\ ToResponse u' = ToResponse u.
Proof.
  intros Hlaw. unfold HashPassword, CheckPassword.
  destruct (GenerateFromPassword (Password u)) as [hash|] eqn:Eh; [|discriminate].
  intros [= <-]. cbn [Password]. rewrite (Hlaw _ _ Eh). repeat split.
Qed.

End PasswordFacts.

Section AccountFacts.
Import models repository.
Context {R : Type} `{!UserRepository R} `{!UserRepositoryOps R}.
Context `{!Bcrypt} `{!BcryptGenerate}.
Context `{!JSON Header} `{!JSON Claims}.


Lemma withEmail_same (u : User) : service.withEmail u (Email u) = u.
Proof. now destruct u. Qed.

Lemma withUsername_same (u : User) : service.withUsername u (Username u) = u.
Proof. now destruct u. Qed.

(** X14. A patch that repeats the current email and username (or leaves
    them out) makes no existence check, so the user's own values are never
    reported as taken: UpdateProfile goes from the lookup straight to
    Update, with the user as found. *)
Theorem UpdateProfile_same_values (s : service.AuthService) (userID : Z)
    (req : UpdateUserRequest) (user : User) (r0 : R) :
  GetByID (service.userRepo s) userID = (Ok user, r0) ->
  patchEmail req = None \/ patchEmail req = Some (Email user) ->
  patchUsername req = None \/ patchUsername req = Some (Username user) ->
  service.UpdateProfile s userID req
  = match Update r0 user with
    | ((Some err, _), r3) =>
        (Fail (fmt.Errorf_w "failed to update user: " err), service.withRepo s r3)
    | ((None, user3), r3) => (Ok (ToResponse user3), service.withRepo s r3)
    end.
Proof.
  intros Hg He Hu. unfold service.UpdateProfile. rewrite Hg.
  assert (E1 : service.updateEmail r0 user req = (Ok user, r0)).
  { unfold service.updateEmail. destruct He as [->| ->]; [reflexivity|].
    now rewrite String.eqb_refl, withEmail_same. }
  assert (E2 : service.updateUsername r0 user req = (Ok user, r0)).
  { unfold service.updateUsername. destruct Hu as [->| ->]; [reflexivity|].
    now rewrite String.eqb_refl, withUsername_same. }
  rewrite E1, E2. destruct (Update r0 user) as [[[e|] u3] r3]; reflexivity.
Qed.

Lemma updateEmail_Ok (r r' : R) (user user' : User) (req : UpdateUserRequest) :
  service.updateEmail r user req = (Ok user', r') ->
  user' = service.withEmail user (default (Email user) (patchEmail req)).
Proof.
  unfold service.updateEmail. destruct (patchEmail req) as [email|]; cbn [default].
  - destruct (negb _).
    + destruct (CheckEmailExists r email) as [[[|]|] r1]; try discriminate. now intros [= <- _].
    + now intros [= <- _].
  - intros [= <- _]. now rewrite withEmail_same.
Qed.

Lemma updateUsername_Ok (r r' : R) (user user' : User) (req : UpdateUserRequest) :
  service.updateUsername r user req = (Ok user', r') ->
  user' = service.withUsername user (default (Username user) (patchUsername req)).
Proof.
  unfold service.updateUsername. destruct (patchUsername req) as [username|]; cbn [default].
  - destruct (negb _).
    + destruct (CheckUsernameExists r username) as [[[|]|] r1]; try discriminate.
      now intros [= <- _].
    + now intros [= <- _].
  - intros [= <- _]. now rewrite withUsername_same.
Qed.

(** X15. What a successful UpdateProfile has written: it handed to Update
    the user it found by id with the email and the username replaced by
    those of the patch where the patch has them, and every other field (id,
    password hash, Telegram ID, creation time) as found; the response is
    that of the user as Update left it. *)
Theorem UpdateProfile_success (s : service.AuthService) (userID : Z)
    (req : UpdateUserRequest) (resp : UserResponse) :
  fst (service.UpdateProfile s userID req) = Ok resp ->
  exists r0 r2 r3 user updated,
    GetByID (service.userRepo s) userID = (Ok user, r0)
    /\ Update r2 {| ID := ID user;
                    Email := default (Email user) (patchEmail req);
                    Username := default (Username user) (patchUsername req);
                    Password := Password user;
                    TelegramID := TelegramID user;
                    CreatedAt := CreatedAt user;
                    UpdatedAt := UpdatedAt user |} = ((None, updated), r3)
    /\ resp = ToResponse updated
    /\ snd (service.UpdateProfile s userID req) = service.withRepo s r3.
Proof.
  unfold service.UpdateProfile.
  destruct (GetByID _ _) as [[user|] r0]; [|discriminate].
  destruct (service.updateEmail r0 user req) as [[user1|] r1] eqn:E1; [|discriminate].
  destruct (service.updateUsername r1 user1 req) as [[user2|] r2] eqn:E2; [|discriminate].
  destruct (Update r2 user2) as [[[e|] updated] r3] eqn:Eu; [discriminate|].
  cbn [fst snd]. intros [= <-].
  apply updateEmail_Ok in E1. apply updateUsername_Ok in E2. subst user1 user2.
  exists r0, r2, r3, user, updated. repeat split. exact Eu.
Qed.

End AccountFacts.

(** ** From login to the gate *)

Section LoginToGate.
Context {R : Type} `{!repository.UserRepository R} `{!repository.UserRepositoryOps R}.
Context `{!Bcrypt} `{!BcryptGenerate}.
Context `{!JSON Header} `{!JSON Claims} `{!LawfulJSON Header} `{!LawfulJSON Claims}.

Lemma issued_access_token_passes (j : JWTManager) (nowA nowR : Time) (user : models.User)
    (tokens : TokenPair) (now : Time) next c :
  GenerateTokenPair j nowA nowR (models.ID user) (models.Email user) (models.Username user) = Ok tokens ->
  gin.Authorization c = "Bearer " +:+ pairAccessToken tokens ->
  NumericDate_Time (NewNumericDate nowA) <= now
  < NumericDate_Time (NewNumericDate (time.Add nowA (accessTokenDuration j))) ->
  exists claims,
    middleware.JWTMiddleware j now next c = next (middleware.storeUser claims c)
    /\ UserID claims = models.ID user /\ Email claims = models.Email user
    /\ Username claims = models.Username user.
Proof.
  intros Hg Hh Hw. rewrite GenerateTokenPair_Ok in Hg. injection Hg as <-.
  cbn [pairAccessToken] in Hh.
  set (claims := newClaims nowA (models.ID user) (models.Email user) (models.Username user)
                   AccessToken (accessTokenDuration j)) in *.
  assert (Hv : ValidateToken j now (wire hs256Header claims (tag (secretKey j) claims))
               = Ok claims).
  { rewrite (ValidateToken_signed j j now _ _ (signClaims_wire j _)), String.eqb_refl.
    assert (W : inWindow claims now = true).
    { unfold claims, inWindow, newClaims. cbn [Registered ExpiresAt NotBefore].
      apply andb_true_iff. split; [apply Z.ltb_lt | apply Z.leb_le]; lia. }
    apply Validate_inWindow in W. now rewrite W. }
  exists claims.
  rewrite (JWTMiddleware_bearer j now next c _ Hh (ValidateToken_Ok_nonempty _ _ _ _ Hv)).
  rewrite Hv. repeat split.
Qed.

(** X16. The access token that Login or Register hands out opens the
    strict gate for the account it was issued to: at every instant of the
    token's window, a request bearing it reaches the rest of the chain, and
    the user id the context then holds is the id of the account in the
    response, as are the email and the username of the claims. *)
Theorem issued_token_passes_gate (s : service.AuthService) (nowA nowR : Time)
    (login : models.LoginRequest) (registration : models.CreateUserRequest)
    (resp : models.UserResponse) (tokens : TokenPair)
    (now : Time) (next : gin.Context -> gin.Context) (c : gin.Context) :
  fst (service.Login s nowA nowR login) = Ok (resp, tokens)
  \/ fst (service.Register s nowA nowR registration) = Ok (resp, tokens) ->
  gin.Authorization c = "Bearer " +:+ pairAccessToken tokens ->
  NumericDate_Time (NewNumericDate nowA) <= now
  < NumericDate_Time
      (NewNumericDate (time.Add nowA (accessTokenDuration (service.jwtManager s)))) ->
  exists claims,
    middleware.JWTMiddleware (service.jwtManager s) now next c
    = next (middleware.storeUser claims c)
    /\ middleware.GetUserIDFromContext (middleware.storeUser claims c) = (models.respID resp, true)
    /\ Email claims = models.respEmail resp
    /\ Username claims = models.respUsername resp.
Proof.
  intros Hs Hh Hw.
  assert (exists user, resp = models.ToResponse user
                       /\ GenerateTokenPair (service.jwtManager s) nowA nowR
                            (models.ID user) (models.Email user) (models.Username user) = Ok tokens)
    as (user & -> & Hg).
  { destruct Hs as [Hl|Hr].
    - revert Hl. unfold service.Login.
      destruct (repository.GetByEmail _ _) as [[user|] r]; [|discriminate].
      destruct (negb _); [discriminate|].
      destruct (GenerateTokenPair _ _ _ _ _ _) eqn:Eg; [|discriminate].
      intros [= <- <-]. eauto.
    - revert Hr. unfold service.Register, models.HashPassword.
      destruct (repository.CheckEmailExists _ _) as [[[|]|] r1]; try discriminate.
      destruct (repository.CheckUsernameExists _ _) as [[[|]|] r2]; try discriminate.
      destruct (GenerateFromPassword _); [|discriminate].
      destruct (repository.Create r2 _) as [[[e|] created] r3]; [discriminate|].
      destruct (GenerateTokenPair _ _ _ _ _ _) eqn:Eg; [|discriminate].
      intros [= <- <-]. eauto. }
  destruct (issued_access_token_passes _ _ _ _ _ now next c Hg Hh Hw)
    as (claims & Hj & Hid & He & Hu).
  exists claims. split; [exact Hj|].
  rewrite GetUserIDFromContext_storeUser, Hid. repeat split; assumption.
Qed.

End LoginToGate.

(** ** The handlers *)

Section HandlerFacts.
Import models reply.
Context {R : Type} `{!repository.UserRepository R} `{!repository.UserRepositoryOps R}.
Context `{!Bcrypt} `{!BcryptGenerate} `{!JSON Header} `{!JSON Claims}.

(** The errors that the services build by wrapping begin with
    [failed to]: none of them is one of the messages the handlers compare
    with. *)
Lemma isDuplicate_wrapped (prefix : string) (err : error) :
  handlers.isDuplicate (fmt.Errorf_w (String "f" prefix) err) = false.
Proof. unfold handlers.isDuplicate, fmt.Errorf_w. cbn [Error]. now appsimpl. Qed.

Lemma GenerateTokenPair_total (j : JWTManager) (nowA nowR : Time) (userID : Z)
    (email username : string) :
  exists pair, GenerateTokenPair j nowA nowR userID email username = Ok pair.
Proof.
  unfold GenerateTokenPair, generateToken, signClaims, SignedString.
  cbn [Sign Method NewWithClaims SigningMethodHS256]. eauto.
Qed.

(** X17. The Register endpoint answers 409 exactly when one of the two
    existence checks reports the value as taken, with the message naming
    which (the email check comes first); whatever else makes the service
    fail (a failure of the store, of hashing, of signing) is answered with
    500 and the fixed text Failed to register user, whatever the text of
    the underlying error. *)
Theorem handler_Register_replies (h : handlers.AuthHandler (R := R)) (nowA nowR : Time)
    (req : CreateUserRequest) :
  let s := handlers.authService h in
  let check1 := repository.CheckEmailExists (service.userRepo s) (createEmail req) in
  let check2 := repository.CheckUsernameExists (snd check1) (createUsername req) in
  let reply := fst (handlers.Register h nowA nowR (Ok req)) in
  (fst check1 = Ok true -> reply = Conflict "email already exists")
  /\ (fst check1 = Ok false -> fst check2 = Ok true ->
      reply = Conflict "username already exists")
  /\ (statusCode reply = 409 ->
      fst check1 = Ok true \/ (fst check1 = Ok false /\ fst check2 = Ok true))
  /\ (forall err, fst (service.Register s nowA nowR req) = Fail err ->
      statusCode reply <> 409 ->
      reply = InternalServerError "Failed to register user").
Proof.
  intros s check1 check2 reply. subst reply check2 check1 s.
  unfold handlers.Register, service.Register, HashPassword.
  destruct (repository.CheckEmailExists _ _) as [[[|]|e1] r1]; cbn [fst snd];
    [| destruct (repository.CheckUsernameExists _ _) as [[[|]|e2] r2]; cbn [fst snd];
       [| destruct (GenerateFromPassword _) as [hashed|e3];
          [ destruct (repository.Create r2 _) as [[[e4|] created] r3];
            [| destruct (GenerateTokenPair _ _ _ _ _ _) as [tokens|e5] ] |] |] |];
    rewrite ?isDuplicate_wrapped; cbn;
    repeat split; try discriminate; try tauto;
    try (intros [?|[? ?]]; discriminate);
    try (intros err _ Hn; now contradiction Hn).
Qed.

(** X18. The Login endpoint has two answers to a request it could bind:
    200 with the user and the tokens when the service logs the user in,
    and otherwise 401 with the text Invalid email or password, the same for
    an unknown email, a failure of the store and a wrong password. It never
    answers 500. *)
Theorem handler_Login_replies (h : handlers.AuthHandler (R := R)) (nowA nowR : Time)
    (req : LoginRequest) :
  fst (handlers.Login h nowA nowR (Ok req))
  = match fst (service.Login (handlers.authService h) nowA nowR req) with
    | Ok (user, tokens) =>
        OK "Login successful"
          (Some (<["user" := hUser user]> (<["tokens" := hTokens tokens]> ∅)))
    | Fail _ => Unauthorized "Invalid email or password"
    end.
Proof.
  unfold handlers.Login, service.Login.
  destruct (repository.GetByEmail _ _) as [[user|e] r]; [|reflexivity].
  destruct (negb _); [reflexivity|].
  destruct (GenerateTokenPair_total (service.jwtManager (handlers.authService h)) nowA nowR
              (ID user) (models.Email user) (models.Username user)) as [pair ->].
  reflexivity.
Qed.

(** X19. The refresh endpoint answers 200 with a new pair, issued for the
    identity in the claims, exactly to a token that validates and has type
    refresh; every other token (malformed, wrongly signed, expired, of type
    access) gets one and the same 401 answer. *)
Theorem handler_RefreshToken_replies (h : handlers.AuthHandler (R := R)) (now nowA nowR : Time)
    (refreshToken : string) :
  let j := service.jwtManager (handlers.authService h) in
  let reply := handlers.RefreshToken h now nowA nowR (Ok refreshToken) in
  match ValidateToken j now refreshToken with
  | Ok claims =>
      if String.eqb (Type_ claims) RefreshToken then
        exists pair,
          GenerateTokenPair j nowA nowR (UserID claims) (jwt.Email claims)
            (jwt.Username claims) = Ok pair
          /\ reply = OK "Token refreshed successfully"
                       (Some (<["tokens" := hTokens pair]> ∅))
      else reply = Unauthorized "Invalid or expired refresh token"
  | Fail _ => reply = Unauthorized "Invalid or expired refresh token"
  end.
Proof.
  intros j reply. subst reply.
  unfold handlers.RefreshToken, service.RefreshToken, RefreshAccessToken. fold j.
  destruct (ValidateToken j now refreshToken) as [claims|e]; [|reflexivity].
  destruct (String.eqb (Type_ claims) RefreshToken); cbn [negb]; [|reflexivity].
  destruct (GenerateTokenPair_total j nowA nowR (UserID claims) (jwt.Email claims)
              (jwt.Username claims)) as [pair Hp].
  exists pair. rewrite Hp. split; reflexivity.
Qed.

(** X20. The three endpoints behind the gate answer 401 (User not
    authenticated) on a context that holds no user id, before they look at
    the request body, and leave the service as it was. On the context that
    the gate built from a token's claims they act on the user id of the
    claims: GetProfile answers with the profile of that id. *)
Theorem handlers_act_on_the_gate_identity (h : handlers.AuthHandler (R := R)) (c : gin.Context) :
  (snd (middleware.GetUserIDFromContext c) = false ->
   handlers.GetProfile h c = (Unauthorized "User not authenticated", h)
   /\ (forall bound,
         handlers.UpdateProfile h c bound = (Unauthorized "User not authenticated", h))
   /\ (forall bound,
         handlers.LinkTelegram h c bound = (Unauthorized "User not authenticated", h)))
  /\ (forall claims user r,
        repository.GetByID (service.userRepo (handlers.authService h)) (UserID claims)
        = (Ok user, r) ->
        handlers.GetProfile h (middleware.storeUser claims c)
        = (OK "Profile retrieved successfully"
             (Some (<["user" := hUser (ToResponse user)]> ∅)),
           handlers.NewAuthHandler (service.withRepo (handlers.authService h) r)))
  /\ (forall claims req,
        fst (handlers.LinkTelegram h (middleware.storeUser claims c) (Ok req))
        = match fst (service.LinkTelegram (handlers.authService h) (UserID claims) req) with
          | None => OK "Telegram account linked successfully" None
          | Some e =>
              if String.eqb (Error e) "telegram account already linked to another user"
              then Conflict (Error e)
              else InternalServerError "Failed to link Telegram account"
          end).
Proof.
  split; [|split].
  - intros Hno. unfold handlers.GetProfile, handlers.UpdateProfile, handlers.LinkTelegram.
    destruct (middleware.GetUserIDFromContext c) as [i found]. cbn in Hno. subst found.
    repeat split.
  - intros claims user r Hg. unfold handlers.GetProfile, service.GetProfile.
    rewrite GetUserIDFromContext_storeUser. cbn [negb]. now rewrite Hg.
  - intros claims req. unfold handlers.LinkTelegram.
    rewrite GetUserIDFromContext_storeUser. cbn [negb].
    destruct (service.LinkTelegram _ _ _) as [[e|] s']; cbn [fst]; [|reflexivity].
    now destruct (String.eqb _ _).
Qed.


End HandlerFacts.

(** ** The configuration *)

Section ConfigFacts.
Import config.
Context `{!DurationParser}.

Lemma getEnv_nonempty (env : gmap string string) (key fallback : string) :
  fallback <> EmptyString -> String.eqb (getEnv env key fallback) EmptyString = false.
Proof.
  intros Hf. unfold getEnv.
  destruct (String.eqb (Getenv env key) EmptyString) eqn:E; cbn [negb]; [|exact E].
  now apply String.eqb_neq.
Qed.

(** X22. Load fails in one case only: the environment ENV is production
    and JWT_SECRET is unset, empty or equal to the default secret. The
    checks of Validate for an empty secret, host, user, password and
    database name never fire on a loaded configuration, since getEnv puts
    a non-empty default in the place of an empty variable; so a
    configuration that Load returns has these fields non-empty. *)
Theorem Load_fails_only_for_default_secret_in_production (env : gmap string string) :
  match Load env with
  | Fail err =>
      getEnv env "ENV" "development" = "production"
      /\ getEnv env "JWT_SECRET" defaultSecret = defaultSecret
      /\ err = fmt.Errorf_w "invalid configuration: "
                 (fmt.Errorf "JWT_SECRET must be changed in production")
  | Ok c =>
      ~ (getEnv env "ENV" "development" = "production"
         /\ getEnv env "JWT_SECRET" defaultSecret = defaultSecret)
      /\ Secret (JWT c) <> EmptyString /\ DBHost (Database c) <> EmptyString
      /\ DBUser (Database c) <> EmptyString /\ DBPassword (Database c) <> EmptyString
      /\ DBName (Database c) <> EmptyString
      /\ Validate c = None
  end.
Proof.
  unfold Load. 
  set (cfg := {| Server := _ |}).
  assert (Hv : Validate cfg
               = if String.eqb (getEnv env "JWT_SECRET" defaultSecret) defaultSecret
                    && String.eqb (getEnv env "ENV" "development") "production"
                 then Some (fmt.Errorf "JWT_SECRET must be changed in production")
                 else None).
  { unfold Validate, cfg. cbn [JWT Secret Server Env Database DBHost DBUser DBPassword DBName].
    rewrite !getEnv_nonempty by discriminate. reflexivity. }
  rewrite Hv.
  destruct (String.eqb (getEnv env "JWT_SECRET" defaultSecret) defaultSecret) eqn:Es;
    destruct (String.eqb (getEnv env "ENV" "development") "production") eqn:Ee;
    cbn [andb] in Hv |- *.
  { apply String.eqb_eq in Es, Ee. repeat split; assumption. }
  all: split;
    [ intros [He' Hs']; apply String.eqb_neq in Es || apply String.eqb_neq in Ee; congruence |].
  all: unfold cfg at 1 2 3 4 5;
    cbn [JWT Secret Server Env Database DBHost DBUser DBPassword DBName];
    repeat split; try exact Hv; apply String.eqb_neq, getEnv_nonempty; discriminate.
Qed.

End ConfigFacts.

(** * The further properties on sample data *)

Module OnSampleMore.
Import Sample.

#[local] Existing Instance headerJSON_lawful.
#[local] Existing Instance claimsJSON_lawful.
#[local] Existing Instance repository.postgresUserRepository.

Lemma gates_store_identity_witness :
let c := Scenario.request ("Bearer " +:+ Scenario.accessToken) in
let now := Scenario.t0 + time.Minute in
gin.Authorization c = "Bearer " +:+ Scenario.accessToken
/\ ValidateToken Scenario.manager now Scenario.accessToken = Ok Scenario.accessClaims
/\ Type_ Scenario.accessClaims = AccessToken
/\ middleware.JWTMiddleware Scenario.manager now id c = Scenario.aliceContext
/\ middleware.GetUserIDFromContext Scenario.aliceContext = (7, true)
/\ middleware.GetUserEmailFromContext Scenario.aliceContext = ("a@x.com", true).
Proof.
intros c now.
assert (Hh : gin.Authorization c = "Bearer " +:+ Scenario.accessToken) by reflexivity.
assert (Hv : ValidateToken Scenario.manager now Scenario.accessToken
             = Ok Scenario.accessClaims) by (vm_compute; reflexivity).
assert (Hty : Type_ Scenario.accessClaims = AccessToken) by reflexivity.
split; [exact Hh|]. split; [exact Hv|]. split; [exact Hty|].
destruct (gates_store_identity Scenario.manager now id c Scenario.accessToken
            Scenario.accessClaims Hh Hv Hty) as (A & _ & B & C & _).
split; [exact A|]. split; [exact B | exact C].
Defined.

Lemma OptionalJWTMiddleware_then_RequireAuth_witness :
let j := Scenario.manager in
let now := Scenario.t0 + time.Minute in
let c := Scenario.request ("Bearer " +:+ Scenario.refreshToken) in
snd (middleware.GetUserIDFromContext c) = false
/\ gateFailure j now c
/\ middleware.OptionalJWTMiddleware j now (middleware.RequireAuth id) c
   = gin.Abort (response.Unauthorized c "Authentication required").
Proof.
intros j now c.
assert (Hno : snd (middleware.GetUserIDFromContext c) = false) by reflexivity.
assert (Hf : gateFailure j now c).
{ right; right; right; right. exists Scenario.refreshClaims.
  split; [vm_compute; reflexivity | discriminate]. }
split; [exact Hno|]. split; [exact Hf|].
exact (proj1 (OptionalJWTMiddleware_then_RequireAuth j now id c Hno) Hf).
Defined.

Lemma ValidateToken_over_time_witness :
let j := Scenario.manager in
ValidateToken j (Scenario.t0 + time.Minute) Scenario.accessToken = Ok Scenario.accessClaims
/\ inWindow Scenario.accessClaims (Scenario.t0 + time.Minute) = true
/\ (forall now' : Time,
      if inWindow Scenario.accessClaims now'
      then ValidateToken j now' Scenario.accessToken = Ok Scenario.accessClaims
      else exists cause,
             ValidateToken j now' Scenario.accessToken
             = Fail (fmt.Errorf_w "failed to parse token: "
                       (newError EmptyString ErrTokenInvalidClaims [cause]))).
Proof.
intros j.
assert (Hv : ValidateToken j (Scenario.t0 + time.Minute) Scenario.accessToken
             = Ok Scenario.accessClaims) by (vm_compute; reflexivity).
split; [exact Hv|].
exact (ValidateToken_over_time j (Scenario.t0 + time.Minute) Scenario.accessToken
         Scenario.accessClaims Hv).
Defined.

Lemma generateToken_lifetime_witness :
let j := Scenario.manager in
let now := Scenario.t0 + 14 * time.Minute in
generateToken j Scenario.t0 7 "a@x.com" "alice" AccessToken (15 * time.Minute)
= Ok Scenario.accessToken
/\ Scenario.t0 <= now
/\ now + time.Second <= time.Add Scenario.t0 (15 * time.Minute)
/\ ValidateToken j now Scenario.accessToken = Ok Scenario.accessClaims.
Proof.
intros j now.
assert (Hg : generateToken j Scenario.t0 7 "a@x.com" "alice" AccessToken (15 * time.Minute)
             = Ok Scenario.accessToken) by (vm_compute; reflexivity).
assert (H1 : Scenario.t0 <= now) by (vm_compute; discriminate).
assert (H2 : now + time.Second <= time.Add Scenario.t0 (15 * time.Minute))
  by (vm_compute; discriminate).
split; [exact Hg|]. split; [exact H1|]. split; [exact H2|].
exact (proj1 (generateToken_lifetime j Scenario.t0 7 "a@x.com" "alice" AccessToken
                (15 * time.Minute) Scenario.accessToken Hg) now H1 H2).
Defined.

Lemma generateToken_dead_on_arrival_witness :
let j := Scenario.manager in
generateToken j Scenario.t0 7 "a@x.com" "alice" AccessToken 500000000
= Ok Scenario.deadToken
/\ NewNumericDate (time.Add Scenario.t0 500000000) <= NewNumericDate Scenario.t0
/\ exists cause,
     ValidateToken j Scenario.t0 Scenario.deadToken
     = Fail (fmt.Errorf_w "failed to parse token: "
               (newError EmptyString ErrTokenInvalidClaims [cause])).
Proof.
intros j.
assert (Hg : generateToken j Scenario.t0 7 "a@x.com" "alice" AccessToken 500000000
             = Ok Scenario.deadToken) by (vm_compute; reflexivity).
assert (Hle : NewNumericDate (time.Add Scenario.t0 500000000) <= NewNumericDate Scenario.t0)
  by (vm_compute; discriminate).
split; [exact Hg|]. split; [exact Hle|].
exact (generateToken_dead_on_arrival j Scenario.t0 7 "a@x.com" "alice" AccessToken 500000000
         Scenario.deadToken Scenario.t0 Hg Hle).
Defined.

Lemma refreshChain_keeps_identity_witness :
let j := Scenario.manager in
GenerateTokenPair j Scenario.t0 Scenario.t0 7 "a@x.com" "alice" = Ok Scenario.pair
/\ refreshChain j Scenario.pair Scenario.refreshSteps = Ok Scenario.refreshedPair
/\ GenerateTokenPair j (Scenario.t0 + time.Hour) (Scenario.t0 + time.Hour) 7 "a@x.com" "alice"
   = Ok Scenario.refreshedPair.
Proof.
intros j.
assert (Hg : GenerateTokenPair j Scenario.t0 Scenario.t0 7 "a@x.com" "alice"
             = Ok Scenario.pair) by (vm_compute; reflexivity).
assert (Hc : refreshChain j Scenario.pair Scenario.refreshSteps = Ok Scenario.refreshedPair)
  by (vm_compute; reflexivity).
split; [exact Hg|]. split; [exact Hc|].
exact (refreshChain_keeps_identity j 7 "a@x.com" "alice" Scenario.refreshSteps
         Scenario.t0 Scenario.t0 Scenario.pair Scenario.refreshedPair Hg Hc).
Defined.

Lemma pg_checks_agree_with_lookups_witness :
repository.roundTrip Scenario.db = (None, Scenario.db)
/\ repository.pgCheckEmailExists Scenario.db "a@x.com"
   = (Ok match fst (repository.pgGetByEmail Scenario.db "a@x.com") with
         | Ok _ => true
         | Fail _ => false
         end, Scenario.db)
/\ repository.pgCheckUsernameExists Scenario.db "nobody"
   = (Ok match fst (repository.pgGetByUsername Scenario.db "nobody") with
         | Ok _ => true
         | Fail _ => false
         end, Scenario.db).
Proof.
assert (Hr : repository.roundTrip Scenario.db = (None, Scenario.db)) by reflexivity.
split; [exact Hr|].
destruct (pg_checks_agree_with_lookups Scenario.db Scenario.db "a@x.com" "nobody" Hr)
  as ((A & _) & (B & _) & _).
split; [exact A | exact B].
Defined.


Lemma pgLinkTelegram_frame_witness :
let out := repository.pgLinkTelegram Scenario.db 99 42 in
fst (repository.roundTrip Scenario.db) = None
/\ (forall u, In u (repository.users Scenario.db) -> models.ID u <> 99)
/\ fst out = Some (fmt.Errorf ("user with id " +:+ fmt.Sprintf_d 99 +:+ " not found"))
/\ repository.users (snd out) = repository.users Scenario.db.
Proof.
intros out.
assert (Hr : fst (repository.roundTrip Scenario.db) = None) by reflexivity.
assert (Hn : forall u, In u (repository.users Scenario.db) -> models.ID u <> 99).
{ intros u [<-|[<-|[]]]; discriminate. }
split; [exact Hr|]. split; [exact Hn|].
destruct (pgLinkTelegram_frame Scenario.db 99 42) as (_ & _ & _ & _ & _ & _ & A & B).
pose proof (B Hr Hn) as E.
split; [exact E|]. apply A. intros Hx.
pose proof (eq_trans (eq_sym E) Hx) as Hy. discriminate Hy.
Defined.

Lemma pgLinkTelegram_then_pgGetByTelegramID_witness :
let db' := {| repository.users :=
                [{| models.ID := 7; models.Email := "a@x.com"; models.Username := "alice";
                    models.Password := "$2a$secret1"; models.TelegramID := Some 42;
                    models.CreatedAt := Scenario.t0; models.UpdatedAt := Scenario.t0 |};
                 Scenario.bob];
              repository.NOW := Scenario.t0;
              repository.faults := [] |} in
repository.pgLinkTelegram Scenario.db 7 42 = (None, db')
/\ repository.roundTrip db' = (None, db')
/\ (forall u, In u (repository.users Scenario.db) ->
              models.TelegramID u = Some 42 -> models.ID u = 7)
/\ exists u,
     repository.pgGetByTelegramID db' 42 = (Ok u, db')
     /\ models.ID u = 7 /\ models.TelegramID u = Some 42.
Proof.
intros db'.
assert (Hl : repository.pgLinkTelegram Scenario.db 7 42 = (None, db')) by reflexivity.
assert (Hr : repository.roundTrip db' = (None, db')) by reflexivity.
assert (Hu : forall u, In u (repository.users Scenario.db) ->
                       models.TelegramID u = Some 42 -> models.ID u = 7).
{ intros u [<-|[<-|[]]]; [reflexivity | discriminate]. }
split; [exact Hl|]. split; [exact Hr|]. split; [exact Hu|].
exact (pgLinkTelegram_then_pgGetByTelegramID Scenario.db db' db' 7 42 Hl Hr Hu).
Defined.

Lemma HashPassword_then_CheckPassword_witness :
let u := {| models.ID := 0; models.Email := "c@x.com"; models.Username := "carol";
            models.Password := "pw123456"; models.TelegramID := None;
            models.CreatedAt := models.zeroTime; models.UpdatedAt := models.zeroTime |} in
let u' := {| models.ID := 0; models.Email := "c@x.com"; models.Username := "carol";
             models.Password := "$2a$pw123456"; models.TelegramID := None;
             models.CreatedAt := models.zeroTime; models.UpdatedAt := models.zeroTime |} in
(forall password hash,
    GenerateFromPassword password = Ok hash ->
    CompareHashAndPassword hash password = None)
/\ models.HashPassword u = (None, u')
/\ models.CheckPassword u' "pw123456" = true
/\ GenerateFromPassword "pw123456" = Ok "$2a$pw123456"
/\ models.ToResponse u' = models.ToResponse u.
Proof.
intros u u'.
assert (Hlaw : forall password hash,
           GenerateFromPassword password = Ok hash ->
           CompareHashAndPassword hash password = None).
{ intros password hash [= <-]. cbn. now rewrite String.eqb_refl. }
assert (Hh : models.HashPassword u = (None, u')) by reflexivity.
split; [exact Hlaw|]. split; [exact Hh|].
exact (HashPassword_then_CheckPassword u u' Hlaw Hh).
Defined.


Lemma UpdateProfile_same_values_witness :
let s := Scenario.authService Scenario.db in
let req := {| models.patchUsername := Some "alice"; models.patchEmail := None |} in
repository.GetByID (service.userRepo s) 7 = (Ok Scenario.alice, Scenario.db)
/\ (models.patchEmail req = None
    \/ models.patchEmail req = Some (models.Email Scenario.alice))
/\ (models.patchUsername req = None
    \/ models.patchUsername req = Some (models.Username Scenario.alice))
/\ fst (service.UpdateProfile s 7 req) = Ok (models.ToResponse Scenario.alice).
Proof.
intros s req.
assert (Hg : repository.GetByID (service.userRepo s) 7 = (Ok Scenario.alice, Scenario.db))
  by reflexivity.
assert (He : models.patchEmail req = None
             \/ models.patchEmail req = Some (models.Email Scenario.alice))
  by (left; reflexivity).
assert (Hu : models.patchUsername req = None
             \/ models.patchUsername req = Some (models.Username Scenario.alice))
  by (right; reflexivity).
split; [exact Hg|]. split; [exact He|]. split; [exact Hu|].
rewrite (UpdateProfile_same_values s 7 req Scenario.alice Scenario.db Hg He Hu).
reflexivity.
Defined.

Lemma UpdateProfile_success_witness :
let s := Scenario.authService Scenario.db in
let req := {| models.patchUsername := Some "alicia"; models.patchEmail := None |} in
let resp := {| models.respID := 7; models.respEmail := "a@x.com";
               models.respUsername := "alicia"; models.respTelegramID := None;
               models.respCreatedAt := Scenario.t0; models.respUpdatedAt := Scenario.t0 |} in
fst (service.UpdateProfile s 7 req) = Ok resp
/\ exists r0 r2 r3 user updated,
     repository.GetByID (service.userRepo s) 7 = (Ok user, r0)
     /\ repository.Update r2
          {| models.ID := models.ID user;
             models.Email := default (models.Email user) (models.patchEmail req);
             models.Username := default (models.Username user) (models.patchUsername req);
             models.Password := models.Password user;
             models.TelegramID := models.TelegramID user;
             models.CreatedAt := models.CreatedAt user;
             models.UpdatedAt := models.UpdatedAt user |} = ((None, updated), r3)
     /\ resp = models.ToResponse updated
     /\ snd (service.UpdateProfile s 7 req) = service.withRepo s r3.
Proof.
intros s req resp.
assert (Hs : fst (service.UpdateProfile s 7 req) = Ok resp) by (vm_compute; reflexivity).
split; [exact Hs|].
exact (UpdateProfile_success s 7 req resp Hs).
Defined.

Lemma issued_token_passes_gate_witness :
let s := Scenario.authService Scenario.db in
let login := {| models.reqEmail := "a@x.com"; models.reqPassword := "secret1" |} in
let now := Scenario.t0 + time.Minute in
let c := Scenario.request ("Bearer " +:+ Scenario.accessToken) in
(fst (service.Login s Scenario.t0 Scenario.t0 login)
 = Ok (models.ToResponse Scenario.alice, Scenario.pair)
 \/ fst (service.Register s Scenario.t0 Scenario.t0 Scenario.carolRequest)
    = Ok (models.ToResponse Scenario.alice, Scenario.pair))
/\ gin.Authorization c = "Bearer " +:+ pairAccessToken Scenario.pair
/\ NumericDate_Time (NewNumericDate Scenario.t0) <= now
   < NumericDate_Time
       (NewNumericDate (time.Add Scenario.t0 (accessTokenDuration (service.jwtManager s))))
/\ exists claims,
     middleware.JWTMiddleware (service.jwtManager s) now id c
     = middleware.storeUser claims c
     /\ middleware.GetUserIDFromContext (middleware.storeUser claims c) = (7, true)
     /\ jwt.Email claims = "a@x.com"
     /\ jwt.Username claims = "alice".
Proof.
intros s login now c.
assert (Hs : fst (service.Login s Scenario.t0 Scenario.t0 login)
             = Ok (models.ToResponse Scenario.alice, Scenario.pair)
             \/ fst (service.Register s Scenario.t0 Scenario.t0 Scenario.carolRequest)
                = Ok (models.ToResponse Scenario.alice, Scenario.pair))
  by (left; vm_compute; reflexivity).
assert (Hh : gin.Authorization c = "Bearer " +:+ pairAccessToken Scenario.pair)
  by reflexivity.
assert (Hw : NumericDate_Time (NewNumericDate Scenario.t0) <= now
             < NumericDate_Time
                 (NewNumericDate
                    (time.Add Scenario.t0 (accessTokenDuration (service.jwtManager s)))))
  by (vm_compute; split; [discriminate | reflexivity]).
split; [exact Hs|]. split; [exact Hh|]. split; [exact Hw|].
exact (issued_token_passes_gate s Scenario.t0 Scenario.t0 login Scenario.carolRequest
         (models.ToResponse Scenario.alice) Scenario.pair now id c Hs Hh Hw).
Defined.

Lemma handler_Register_replies_witness :
let h := Scenario.authHandler Scenario.db in
let req := {| models.createEmail := "a@x.com"; models.createUsername := "carol";
              models.createPassword := "pw123456" |} in
fst (repository.CheckEmailExists (service.userRepo (handlers.authService h)) "a@x.com")
= Ok true
/\ fst (handlers.Register h Scenario.t0 Scenario.t0 (Ok req))
   = reply.Conflict "email already exists".
Proof.
intros h req.
assert (Hc : fst (repository.CheckEmailExists (service.userRepo (handlers.authService h))
                    "a@x.com") = Ok true) by reflexivity.
split; [exact Hc|].
exact (proj1 (handler_Register_replies h Scenario.t0 Scenario.t0 req) Hc).
Defined.

Lemma handlers_act_on_the_gate_identity_witness :
let h := Scenario.authHandler Scenario.db in
let c := Scenario.request ("Bearer " +:+ Scenario.accessToken) in
(snd (middleware.GetUserIDFromContext c) = false
 /\ handlers.GetProfile h c = (reply.Unauthorized "User not authenticated", h))
/\ (repository.GetByID (service.userRepo (handlers.authService h))
      (UserID Scenario.accessClaims) = (Ok Scenario.alice, Scenario.db)
    /\ handlers.GetProfile h Scenario.aliceContext
       = (reply.OK "Profile retrieved successfully"
            (Some (<["user" := reply.hUser (models.ToResponse Scenario.alice)]> ∅)),
          handlers.NewAuthHandler (service.withRepo (handlers.authService h) Scenario.db))).
Proof.
intros h c.
assert (Hno : snd (middleware.GetUserIDFromContext c) = false) by reflexivity.
assert (Hg : repository.GetByID (service.userRepo (handlers.authService h))
               (UserID Scenario.accessClaims) = (Ok Scenario.alice, Scenario.db))
  by reflexivity.
destruct (handlers_act_on_the_gate_identity h c) as (A & B & _).
split.
- split; [exact Hno|]. exact (proj1 (A Hno)).
- split; [exact Hg|]. exact (B Scenario.accessClaims Scenario.alice Scenario.db Hg).
Defined.


End OnSampleMore.
